(** * invest-api: the trading strategy of [strategy/strategy2.py]

    A shallow embedding of [TradingStrategy] (indicators, stop-loss and
    take-profit multipliers, the per-ticker decision and the cycle loop)
    together with the properties stated about it.

    Numbers.  Python floats are modelled by exact rationals ([Q]); rounding,
    overflow and the sign of zero are not modelled.  The values that numpy
    arithmetic can produce out of finite operands, [inf], [-inf] and [nan],
    are modelled explicitly ([num]), because a [numpy.float64] divided by
    zero yields one of them (with a [RuntimeWarning]) where a Python float
    raises [ZeroDivisionError]. *)

From Stdlib Require Import QArith Qabs Qminmax Lqa Lia List.
From stdpp Require Import gmap strings list fin_maps.

Open Scope Q_scope.

(** ** Exceptions and results *)

Inductive exn : Type :=
  | IndexError
  | TypeError
  | AttributeError
  | ZeroDivisionError.

Inductive result (A : Type) : Type :=
  | Ok (a : A)
  | Raise (e : exn).

Arguments Ok {A} a.
Arguments Raise {A} e.

#[global] Instance result_bind : MBind result := fun A B k r =>
  match r with
  | Ok a => k a
  | Raise e => Raise e
  end.

#[global] Instance result_ret : MRet result := fun A a => Ok a.

(** [for i in idx: acc = body i acc], stopping at the first exception. *)
Fixpoint for_each {I A : Type} (body : I -> A -> result A)
    (idx : list I) (acc : A) : result A :=
  match idx with
  | [] => Ok acc
  | i :: rest => acc' ← body i acc; for_each body rest acc'
  end.

(** [for i in range(lo, hi)] *)
Definition for_range {A : Type} (lo hi : nat)
    (body : nat -> A -> result A) (acc : A) : result A :=
  for_each body (seq lo (hi - lo)) acc.

(** ** Numbers *)

Definition Qltb (a b : Q) : bool := negb (Qle_bool b a).

(** A float value: finite, or one of the special values of IEEE 754. *)
Inductive num : Type :=
  | Fin (q : Q)
  | PInf
  | NInf
  | NaN.

Coercion Fin : Q >-> num.

Definition nneg (x : num) : num :=
  match x with
  | Fin q => Fin (- q)
  | PInf => NInf
  | NInf => PInf
  | NaN => NaN
  end.

Definition nadd (x y : num) : num :=
  match x, y with
  | NaN, _ | _, NaN => NaN
  | Fin a, Fin b => Fin (a + b)
  | PInf, NInf | NInf, PInf => NaN
  | PInf, _ | _, PInf => PInf
  | NInf, _ | _, NInf => NInf
  end.

Definition nsub (x y : num) : num := nadd x (nneg y).

(** [inf * a] for a finite [a]: the sign follows [a], and [inf * 0] is [nan]. *)
Definition inf_times (pos : bool) (a : Q) : num :=
  if Qltb 0 a then (if pos then PInf else NInf)
  else if Qltb a 0 then (if pos then NInf else PInf)
  else NaN.

Definition nmul (x y : num) : num :=
  match x, y with
  | NaN, _ | _, NaN => NaN
  | Fin a, Fin b => Fin (a * b)
  | Fin a, PInf | PInf, Fin a => inf_times true a
  | Fin a, NInf | NInf, Fin a => inf_times false a
  | PInf, PInf | NInf, NInf => PInf
  | PInf, NInf | NInf, PInf => NInf
  end.

(** [x <= y] on floats: every comparison with [nan] is false. *)
Definition nle (x y : num) : bool :=
  match x, y with
  | NaN, _ | _, NaN => false
  | Fin a, Fin b => Qle_bool a b
  | NInf, _ => true
  | _, PInf => true
  | _, _ => false
  end.

Definition nge (x y : num) : bool := nle y x.

(** True division of finite operands when one of them is a
    [numpy.float64]: a zero divisor gives [inf], [-inf] or [nan] and a
    warning, never an exception. *)
Definition np_div (a b : Q) : num :=
  if Qeq_bool b 0 then inf_times true a else Fin (a / b).

(** True division of two Python numbers: a zero divisor raises. *)
Definition py_div (a b : Q) : result Q :=
  if Qeq_bool b 0 then Raise ZeroDivisionError else Ok (a / b).

Definition Qsum (l : list Q) : Q := fold_right Qplus 0 l.

(** [np.mean] of a non-empty sequence of finite values.  On the empty
    sequence numpy answers [nan]; every call below is on a non-empty
    sequence or is followed by an exception. *)
Definition mean (l : list Q) : Q := Qsum l / inject_Z (Z.of_nat (length l)).

(** ** Arrays with Python's bounds checks *)

Definition arr_get (a : list Q) (i : nat) : result Q :=
  match a !! i with
  | Some x => Ok x
  | None => Raise IndexError
  end.

Definition arr_set (a : list Q) (i : nat) (x : Q) : result (list Q) :=
  if decide (i < length a)%nat then Ok (<[i:=x]> a) else Raise IndexError.

(** [a[-1]] *)
Definition arr_last (a : list Q) : result Q :=
  match last a with
  | Some x => Ok x
  | None => Raise IndexError
  end.

(** ** The indicators *)

Definition pnat (p : positive) : nat := Pos.to_nat p.
Definition pQ (p : positive) : Q := inject_Z (Z.pos p).

(** [prices[-period:]] for [period <= len(prices)] *)
Definition last_n (n : nat) (prices : list Q) : list Q :=
  drop (length prices - n) prices.

Definition calculate_sma (prices : list Q) (period : positive) : option Q :=
  if (pnat period <=? length prices)%nat
  then Some (mean (last_n (pnat period) prices))
  else None.

Definition ema_step (k : Q) (ema price : Q) : Q := price * k + ema * (1 - k).

Definition calculate_ema (prices : list Q) (period : positive)
    : result (option Q) :=
  if (length prices <? pnat period)%nat then Ok None
  else
    match prices with
    | [] => Raise IndexError
    | p0 :: rest =>
        let k := 2 / (pQ period + 1) in
        Ok (Some (fold_left (ema_step k) rest p0))
    end.

(** [prices[i] - prices[i-1]] for [i] in [range(1, len(prices))] *)
Fixpoint deltas (prices : list Q) : list Q :=
  match prices with
  | a :: (b :: _) as rest => (b - a) :: deltas rest
  | _ => []
  end.

Definition gains (prices : list Q) : list Q :=
  filter (fun d => Qltb 0 d = true) (deltas prices).

Definition losses (prices : list Q) : list Q :=
  map Qopp (filter (fun d => Qltb 0 d = false) (deltas prices)).

Definition mean_or_zero (l : list Q) : Q :=
  match l with
  | [] => 0
  | _ => mean l
  end.

Definition calculate_rsi (prices : list Q) (period : positive) : option Q :=
  if (length prices <? pnat period)%nat then None
  else
    let average_gain := mean_or_zero (gains prices) in
    let average_loss := mean_or_zero (losses prices) in
    if Qeq_bool average_loss 0 then Some 100
    else
      let rs := average_gain / average_loss in
      Some (100 - 100 / (1 + rs)).

Definition np_max3 (a b c : Q) : Q := Qmax (Qmax a b) c.

(** Body of the first loop: [tr[i] = np.max([tr1, tr2, tr3])] *)
Definition true_range_step (prices : list Q) (i : nat) (tr : list Q)
    : result (list Q) :=
  pi ← arr_get prices i;
  pj ← arr_get prices (i - 1);
  let tr1 := Qabs (pi - pj) in
  let tr2 := Qabs (pi - pj) in
  let tr3 := Qabs (pi - pj) in
  arr_set tr i (np_max3 tr1 tr2 tr3).

(** Body of the second loop:
    [atr[i] = (atr[i - 1] * (period - 1) + tr[i]) / period] *)
Definition smoothing_step (period : positive) (tr : list Q) (i : nat)
    (atr : list Q) : result (list Q) :=
  prev ← arr_get atr (i - 1);
  t ← arr_get tr i;
  arr_set atr i ((prev * (pQ period - 1) + t) / pQ period).

Definition calculate_atr (prices : list Q) (period : positive) : result Q :=
  tr ← for_range 1 (length prices) (true_range_step prices)
         (replicate (length prices) 0);
  atr ← arr_set (replicate (length prices) 0) (pnat period - 1)
          (mean (take (pnat period) tr));
  atr ← for_range (pnat period) (length atr) (smoothing_step period tr) atr;
  arr_last atr.

(** ** The data stores

    Documents are records with the fields the strategy reads.  A
    collection is the list of its documents by ascending [_id]. *)

Record Instrument : Type := {
  ticker : string;
  uid : string;
  instrument_type : string
}.

Record Security : Type := {
  instrument_uid : string;
  security_balance : Q
}.

Record Order : Type := {
  order_type : string;
  order_instrument_uid : string;
  price : Q
}.

(** The [marketData] field of a snapshot: ticker to price, in the
    dictionary's own order. *)
Definition Snapshot : Type := list (string * Q).

Record Database : Type := {
  market_data_coll : list Snapshot;
  instruments_coll : list Instrument;
  orders_coll : list Order;
  (** each document of [securities] with its ['securities'] list (empty
      when the key is missing) *)
  securities_coll : list (list Security)
}.

Record TradingStrategy : Type := {
  db : Database;
  balance : Q;
  sl : Q;
  tp : Q;
  forecast : gmap string Q;
  market_data : Snapshot;
  is_reverse : bool;
  period : positive;
  frame : nat
}.

(** [cursor.limit(n)]: a limit of 0 is no limit. *)
Definition mongo_limit {A : Type} (n : nat) (docs : list A) : list A :=
  match n with
  | O => docs
  | _ => take n docs
  end.

(** [db.market_data.find().sort('_id', -1).limit(self.frame)] *)
Definition history_records (self : TradingStrategy) : list Snapshot :=
  mongo_limit (frame self) (rev (market_data_coll (db self))).

(** [db.instruments.find_one({'ticker': ticker})] *)
Definition find_one_instrument (self : TradingStrategy) (t : string)
    : option Instrument :=
  List.find (fun i => String.eqb (ticker i) t) (instruments_coll (db self)).

(** [db.orders.find({'order_type': 'buy', 'instrument_uid': uid})] *)
Definition find_buy_orders (self : TradingStrategy) (u : string) : list Order :=
  List.filter
    (fun o => String.eqb (order_type o) "buy"
              && String.eqb (order_instrument_uid o) u)
    (orders_coll (db self)).

(** ** The trend loader *)

(** What [_get_trends] returns: a one-element list holding an error text,
    or the dictionary of price series. *)
Inductive trends_t : Type :=
  | TrendsList (l : list string)
  | TrendsDict (m : gmap string (list Q)).

Definition add_price (trends : gmap string (list Q)) (item : string * Q)
    : gmap string (list Q) :=
  let '(t, p) := item in
  let trends :=
    match trends !! t with
    | None => <[t := []]> trends
    | Some _ => trends
    end in
  <[t := default [] (trends !! t) ++ [p]]> trends.

Definition add_record (trends : gmap string (list Q)) (record : Snapshot)
    : gmap string (list Q) :=
  fold_left add_price record trends.

Definition _get_trends (self : TradingStrategy) : trends_t :=
  match history_records self with
  | [] => TrendsList ["Error: No historical data found"%string]
  | records => TrendsDict (fold_left add_record records ∅)
  end.

(** ** Holdings and risk multipliers *)

Definition _get_security_balance (self : TradingStrategy) (instrument : Instrument)
    : Q :=
  let securities :=
    match securities_coll (db self) with
    | [] => []
    | security_obj :: _ => security_obj
    end in
  match List.find (fun sec => String.eqb (instrument_uid sec) (uid instrument))
                  securities with
  | Some sec => security_balance sec
  | None => 0
  end.

(** [atr_value] is the [numpy.float64] returned by [calculate_atr], or the
    integer 1: either way a zero divisor does not raise. *)
Definition _calculate_sl_tp (self : TradingStrategy) (instrument : Instrument)
    (atr_value : Q) : num * num :=
  let sl := if String.eqb (instrument_type instrument) "share"
            then sl self else sl self / 2 in
  let tp := if String.eqb (instrument_type instrument) "share"
            then tp self else tp self / 2 in
  let sl_multiplier := np_div sl atr_value in
  let tp_multiplier := np_div tp atr_value in
  (sl_multiplier, tp_multiplier).

(** ** Messages *)

Inductive action : Type := BUY | SELL.

(** The texts appended to [messages]; a price is the value handed to the
    [:.2f] format. *)
Inductive message : Type :=
  | MsgStopLoss (t : string) (stop_loss : num)      (* "SELL t SL: 0.00" *)
  | MsgTakeProfit (t : string) (take_profit : num)  (* "SELL t TP: 0.00" *)
  | MsgAction (a : action) (t : string)             (* "BUY t", "SELL t" *)
  | MsgHold (t : string).                           (* "HOLD t - No clear action" *)

(** ** The decision for one ticker *)

(** [trends.get(ticker, [])]: a list has no [get]. *)
Definition trends_get (trends : trends_t) (t : string) : result (list Q) :=
  match trends with
  | TrendsList _ => Raise AttributeError
  | TrendsDict m => Ok (default [] (m !! t))
  end.

(** [try: calculate_atr(prices, period=14) / except IndexError: 1] *)
Definition atr_or_one (prices : list Q) : result Q :=
  match calculate_atr prices 14 with
  | Ok v => Ok v
  | Raise IndexError => Ok 1
  | Raise e => Raise e
  end.

Definition rsi_below (rsi : option Q) (bound : Q) : bool :=
  match rsi with
  | Some r => Qltb r bound
  | None => false
  end.

Definition rsi_above (rsi : option Q) (bound : Q) : bool :=
  match rsi with
  | Some r => Qltb bound r
  | None => false
  end.

(** The [else] branch of [_get_predicate]: the rules on SMA, EMA, RSI and
    the forecast. *)
Definition trend_rules (self : TradingStrategy) (messages : list message)
    (t : string) (current_price forecast_prob : Q)
    (sma ema rsi : option Q) : list message :=
  match sma, ema with
  | Some sma, Some ema =>
      if (Qltb ema current_price && Qltb sma current_price
          && Qle_bool (2 # 5) forecast_prob) && rsi_below rsi 35
      then
        let action := if negb (is_reverse self) then BUY else SELL in
        messages ++ [MsgAction action t]
      else if (Qltb current_price ema && Qltb current_price sma
               && Qle_bool (3 # 5) forecast_prob) && rsi_above rsi 70
      then
        let action := if negb (is_reverse self) then SELL else BUY in
        messages ++ [MsgAction action t]
      else messages ++ [MsgHold t]
  | _, _ => messages
  end.

Definition _get_predicate (self : TradingStrategy) (messages : list message)
    (instrument : Instrument) (current_price : Q) (price_change : num)
    (trends : trends_t) : result (list message) :=
  let t := ticker instrument in
  prices ← trends_get trends t;
  atr_value ← atr_or_one prices;
  let '(sl_multiplier, tp_multiplier) :=
    _calculate_sl_tp self instrument atr_value in
  let stop_loss := nsub current_price (nmul sl_multiplier atr_value) in
  let take_profit := nadd current_price (nmul tp_multiplier atr_value) in
  let forecast_prob := default 0 (forecast self !! t) in
  let sma := calculate_sma prices (period self) in
  ema ← calculate_ema prices (period self);
  let rsi := calculate_rsi prices (period self) in
  let sec_balance := _get_security_balance self instrument in
  if nle price_change (nneg sl_multiplier) && Qltb 0 sec_balance
  then Ok (messages ++ [MsgStopLoss t stop_loss])
  else if nge price_change tp_multiplier && Qltb 0 sec_balance
  then Ok (messages ++ [MsgTakeProfit t take_profit])
  else Ok (trend_rules self messages t current_price forecast_prob sma ema rsi).

(** ** The cycle *)

(** A finite number with its run-time type: the current price is a Python
    float, [np.mean] returns a [numpy.float64]. *)
Inductive pynum : Type :=
  | PyFloat (q : Q)
  | NpFloat (q : Q).

(** [np.mean(prices) if prices else current_price] *)
Definition average_buy_price (prices : list Q) (current_price : Q) : pynum :=
  match prices with
  | [] => PyFloat current_price
  | _ => NpFloat (mean prices)
  end.

(** [(current_price - buy_price) / buy_price * 100] *)
Definition price_change_pct (current_price : Q) (buy_price : pynum)
    : result num :=
  match buy_price with
  | PyFloat b =>
      q ← py_div (current_price - b) b;
      Ok (Fin (q * 100))
  | NpFloat b => Ok (nmul (np_div (current_price - b) b) 100)
  end.

Definition evaluate_ticker (self : TradingStrategy) (trends : trends_t)
    (item : string * Q) (messages : list message) : result (list message) :=
  let '(t, current_price) := item in
  instrument ← match find_one_instrument self t with
               | Some i => Ok i
               | None => Raise TypeError   (* [instrument['uid']] on [None] *)
               end;
  let buy_orders := find_buy_orders self (uid instrument) in
  let prices := map price buy_orders in
  let buy_price := average_buy_price prices current_price in
  price_change ← price_change_pct current_price buy_price;
  _get_predicate self messages instrument current_price price_change trends.

Definition make_predicate (self : TradingStrategy) : result (list message) :=
  let messages := [] in
  let trends := _get_trends self in
  for_each (evaluate_ticker self trends) (market_data self) messages.

(** ** Notions used in the statements *)

(** Each price is below the next one. *)
Fixpoint strictly_increasing (prices : list Q) : Prop :=
  match prices with
  | a :: (b :: _) as rest => a < b /\ strictly_increasing rest
  | _ => True
  end.

(** The prices recorded for ticker [t], snapshot after snapshot, in the
    order of [records]. *)
Definition series_of (t : string) (records : list Snapshot) : list Q :=
  flat_map
    (fun record => map snd (List.filter (fun item => String.eqb (fst item) t) record))
    records.

(** A dictionary entry exists exactly for a non-empty series. *)
Definition entry_of (series : list Q) : option (list Q) :=
  match series with
  | [] => None
  | _ => Some series
  end.

(** ** Evaluations that differ in [is_reverse] only *)

Definition with_reverse (reverse : bool) (self : TradingStrategy)
    : TradingStrategy :=
  {| db := db self;
     balance := balance self;
     sl := sl self;
     tp := tp self;
     forecast := forecast self;
     market_data := market_data self;
     is_reverse := reverse;
     period := period self;
     frame := frame self |}.

Definition opposite (a : action) : action :=
  match a with
  | BUY => SELL
  | SELL => BUY
  end.

(** ** Sample stores and strategies *)

Definition share_AAA : Instrument :=
  {| ticker := "AAA"; uid := "uid-aaa"; instrument_type := "share" |}.

(** One snapshot per price, oldest first, for the single ticker AAA. *)
Definition store_of (history holdings buy_prices : list Q) : Database :=
  {| market_data_coll := map (fun p => [("AAA"%string, p)]) history;
     instruments_coll := [share_AAA];
     orders_coll :=
       map (fun p => {| order_type := "buy";
                        order_instrument_uid := "uid-aaa";
                        price := p |}) buy_prices;
     securities_coll :=
       [map (fun b => {| instrument_uid := "uid-aaa";
                         security_balance := b |}) holdings] |}.

Definition strategy_of (store : Database) (stop take : Q)
    (probabilities : gmap string Q) (market : Snapshot) : TradingStrategy :=
  {| db := store;
     balance := 1000;
     sl := stop;
     tp := take;
     forecast := probabilities;
     market_data := market;
     is_reverse := false;
     period := 20;
     frame := 1000 |}.

(** 120, 119, ..., 100 by ascending [_id]: the loader reads 100, ..., 120. *)
Definition falling_history : list Q :=
  map (fun i => inject_Z (Z.of_nat i)) (rev (seq 100 21)).

(** Twenty snapshots at the same price: every true range is 0. *)
Definition constant_history : list Q := repeat 50 20.

(** The dictionary a strategy's loader returns (empty on the error list). *)
Definition loaded_trends (self : TradingStrategy) : gmap string (list Q) :=
  match _get_trends self with
  | TrendsDict m => m
  | TrendsList _ => ∅
  end.

(** AAA flat, prices 100 to 120, forecast 0.5, current price 120. *)
Definition rising_strategy : TradingStrategy :=
  strategy_of (store_of falling_history [] []) 5 10
    {[ "AAA"%string := 1 # 2 ]} [("AAA"%string, 120)].

(** AAA held (3 units, bought at 100), current price 80. *)
Definition held_strategy : TradingStrategy :=
  strategy_of (store_of falling_history [3] [100]) 5 10
    {[ "AAA"%string := 1 # 2 ]} [("AAA"%string, 80)].

(** No snapshot stored. *)
Definition empty_history_strategy : TradingStrategy :=
  strategy_of (store_of [] [] []) 5 10 ∅ [("AAA"%string, 120)].

(** No snapshot stored and an empty market snapshot. *)
Definition idle_strategy : TradingStrategy :=
  strategy_of (store_of [] [] []) 5 10 ∅ [].

(** Three snapshots only: too few for the moving averages. *)
Definition quiet_strategy : TradingStrategy :=
  strategy_of (store_of [102; 101; 100] [] []) 5 10 ∅ [("AAA"%string, 120)].

(** AAA held, constant prices, non-negative settings. *)
Definition constant_strategy : TradingStrategy :=
  strategy_of (store_of constant_history [3] [50]) 5 10 ∅ [("AAA"%string, 50)].

(** AAA held, constant prices, a negative stop-loss setting. *)
Definition negative_stop_strategy : TradingStrategy :=
  strategy_of (store_of constant_history [3] [50]) (-1) 10 ∅
    [("AAA"%string, 50)].

(** AAA flat and quoted at 0. *)
Definition zero_price_strategy : TradingStrategy :=
  strategy_of (store_of falling_history [] []) 5 10 ∅ [("AAA"%string, 0)].

(** AAA flat, prices 100 to 120, no forecast for any ticker. *)
Definition no_forecast_strategy : TradingStrategy :=
  strategy_of (store_of falling_history [] []) 5 10 ∅ [("AAA"%string, 120)].

(** The market snapshot names BBB, which the directory does not know. *)
Definition unknown_ticker_strategy : TradingStrategy :=
  strategy_of (store_of falling_history [] []) 5 10 ∅
    [("AAA"%string, 120); ("BBB"%string, 10)].

(** ** Further notions used in the statements *)

(** Each price is above the next one. *)
Fixpoint strictly_decreasing (prices : list Q) : Prop :=
  match prices with
  | a :: (b :: _) as rest => b < a /\ strictly_decreasing rest
  | _ => True
  end.

(** The ticker a message is about. *)
Definition message_ticker (msg : message) : string :=
  match msg with
  | MsgStopLoss t _ | MsgTakeProfit t _ | MsgAction _ t | MsgHold t => t
  end.

(** The stop-loss and take-profit settings that apply to an instrument:
    halved unless it is a share. *)
Definition sl_for (self : TradingStrategy) (instrument : Instrument) : Q :=
  if String.eqb (instrument_type instrument) "share"
  then sl self else sl self / 2.

Definition tp_for (self : TradingStrategy) (instrument : Instrument) : Q :=
  if String.eqb (instrument_type instrument) "share"
  then tp self else tp self / 2.

Definition bond_CCC : Instrument :=
  {| ticker := "CCC"; uid := "uid-ccc"; instrument_type := "bond" |}.

(** * Properties *)

(** ** Loops over arrays *)

Lemma bind_Ok {A B : Type} (a : A) (k : A -> result B) :
  (Ok a ≫= k) = k a.
Proof. reflexivity. Qed.

Lemma for_each_ok {I A : Type} (P : A -> Prop) (R : I -> Prop)
    (body : I -> A -> result A) (idx : list I) (acc : A) :
  Forall R idx -> P acc ->
  (forall i a, R i -> P a -> exists a', body i a = Ok a' /\ P a') ->
  exists a', for_each body idx acc = Ok a' /\ P a'.
Proof.
  intros Hidx Hacc Hbody. revert acc Hacc.
  induction Hidx as [|i rest Hi _ IH]; intros acc Hacc; simpl.
  - eauto.
  - destruct (Hbody i acc Hi Hacc) as (a' & -> & Ha'). simpl. auto.
Qed.

Lemma for_range_ok {A : Type} (P : A -> Prop) (lo hi : nat)
    (body : nat -> A -> result A) (acc : A) :
  P acc ->
  (forall i a, (lo <= i < hi)%nat -> P a -> exists a', body i a = Ok a' /\ P a') ->
  exists a', for_range lo hi body acc = Ok a' /\ P a'.
Proof.
  intros Hacc Hbody. unfold for_range.
  apply for_each_ok with (R := fun i => (lo <= i < hi)%nat); auto.
  apply List.Forall_forall. intros i Hi. apply in_seq in Hi. lia.
Qed.

Lemma arr_get_ok (a : list Q) (i : nat) :
  (i < length a)%nat -> exists x, arr_get a i = Ok x.
Proof.
  intros Hi. unfold arr_get.
  destruct (lookup_lt_is_Some_2 a i Hi) as [x ->]. eauto.
Qed.

Lemma arr_set_ok (a : list Q) (i : nat) (x : Q) :
  (i < length a)%nat ->
  exists a', arr_set a i x = Ok a' /\ length a' = length a.
Proof.
  intros Hi. unfold arr_set. rewrite decide_True by exact Hi.
  eexists. split; [reflexivity | apply length_insert].
Qed.

Lemma arr_set_raise (a : list Q) (i : nat) (x : Q) :
  (length a <= i)%nat -> arr_set a i x = Raise IndexError.
Proof. intros Hi. unfold arr_set. rewrite decide_False by lia. reflexivity. Qed.

Lemma arr_last_ok (a : list Q) :
  (0 < length a)%nat -> exists x, arr_last a = Ok x.
Proof.
  intros Ha. unfold arr_last.
  destruct (last a) as [x|] eqn:E; [eauto|].
  apply last_None in E. subst a. simpl in Ha. lia.
Qed.

(** The first loop of [calculate_atr] never leaves the arrays. *)
Lemma true_range_ok (prices : list Q) :
  exists tr,
    for_range 1 (length prices) (true_range_step prices)
      (replicate (length prices) 0) = Ok tr
    /\ length tr = length prices.
Proof.
  apply for_range_ok with (P := fun tr => length tr = length prices).
  - apply length_replicate.
  - intros i tr Hi Htr. unfold true_range_step.
    destruct (arr_get_ok prices i) as [pi ->]; [lia|].
    destruct (arr_get_ok prices (i - 1)) as [pj ->]; [lia|].
    rewrite !bind_Ok. cbv zeta.
    destruct (arr_set_ok tr i (np_max3 (Qabs (pi - pj)) (Qabs (pi - pj)) (Qabs (pi - pj))))
      as (tr' & -> & Hlen); [lia|].
    exists tr'. split; [reflexivity | lia].
Qed.

Lemma calculate_atr_short (prices : list Q) (period : positive) :
  (length prices < pnat period)%nat ->
  calculate_atr prices period = Raise IndexError.
Proof.
  intros Hlen. unfold calculate_atr.
  destruct (true_range_ok prices) as (tr & -> & Htr). rewrite bind_Ok.
  rewrite arr_set_raise; [reflexivity|].
  rewrite length_replicate. lia.
Qed.

Lemma calculate_atr_long (prices : list Q) (period : positive) :
  (pnat period <= length prices)%nat ->
  exists v, calculate_atr prices period = Ok v.
Proof.
  intros Hlen. unfold calculate_atr.
  assert (Hp : (0 < pnat period)%nat) by (unfold pnat; lia).
  destruct (true_range_ok prices) as (tr & -> & Htr). rewrite bind_Ok.
  destruct (arr_set_ok (replicate (length prices) 0) (pnat period - 1)
              (mean (take (pnat period) tr))) as (atr & -> & Hatr).
  { rewrite length_replicate. lia. }
  rewrite length_replicate in Hatr. rewrite bind_Ok.
  destruct (for_range_ok (fun a : list Q => length a = length prices)
              (pnat period) (length atr) (smoothing_step period tr) atr)
    as (atr' & -> & Hatr'); [exact Hatr| |].
  - intros i a Hi Ha. unfold smoothing_step.
    destruct (arr_get_ok a (i - 1)) as [prev ->]; [lia|].
    destruct (arr_get_ok tr i) as [t ->]; [lia|]. rewrite !bind_Ok.
    destruct (arr_set_ok a i ((prev * (pQ period - 1) + t) / pQ period))
      as (a' & -> & Hlen'); [lia|].
    exists a'. split; [reflexivity | lia].
  - rewrite bind_Ok. apply arr_last_ok. lia.
Qed.

(** ** Indicators on short series *)

Lemma calculate_sma_short (prices : list Q) (period : positive) :
  (length prices < pnat period)%nat -> calculate_sma prices period = None.
Proof.
  intros Hlen. unfold calculate_sma.
  destruct (Nat.leb_spec (pnat period) (length prices)); [lia | reflexivity].
Qed.

Lemma calculate_ema_short (prices : list Q) (period : positive) :
  (length prices < pnat period)%nat -> calculate_ema prices period = Ok None.
Proof.
  intros Hlen. unfold calculate_ema.
  destruct (Nat.ltb_spec (length prices) (pnat period)); [reflexivity | lia].
Qed.

Lemma calculate_rsi_short (prices : list Q) (period : positive) :
  (length prices < pnat period)%nat -> calculate_rsi prices period = None.
Proof.
  intros Hlen. unfold calculate_rsi.
  destruct (Nat.ltb_spec (length prices) (pnat period)); [reflexivity | lia].
Qed.

Lemma atr_or_one_short (prices : list Q) :
  (length prices < 14)%nat -> atr_or_one prices = Ok 1.
Proof.
  intros Hlen. unfold atr_or_one.
  rewrite calculate_atr_short; [reflexivity | unfold pnat; lia].
Qed.

(** C3, as the claim states it, fails: on the empty series (shorter than
    any period) [calculate_atr] raises [IndexError] instead of returning. *)
Lemma C3_atr_raises_on_empty_series :
  calculate_atr [] 14 = Raise IndexError
  /\ ~ (exists v, calculate_atr [] 14 = Ok v).
Proof.
  split; [reflexivity|]. intros [v Hv]. discriminate Hv.
Qed.

(** C3, amended: on every series shorter than the period, SMA, EMA and RSI
    return [None] without raising, whereas ATR raises [IndexError]; the
    engine catches exactly that exception around its ATR call (period 14)
    and continues with the value 1. *)
Theorem C3_indicators_on_short_series (prices : list Q) (period : positive) :
  (length prices < pnat period)%nat ->
  calculate_sma prices period = None
  /\ calculate_ema prices period = Ok None
  /\ calculate_rsi prices period = None
  /\ calculate_atr prices period = Raise IndexError
  /\ ((length prices < 14)%nat -> atr_or_one prices = Ok 1).
Proof.
  intros Hlen. repeat split.
  - apply calculate_sma_short, Hlen.
  - apply calculate_ema_short, Hlen.
  - apply calculate_rsi_short, Hlen.
  - apply calculate_atr_short, Hlen.
  - apply atr_or_one_short.
Qed.

Lemma C3_indicators_on_short_series_witness :
  (length [1; 2; 3] < pnat 14)%nat
  /\ calculate_sma [1; 2; 3] 14 = None
  /\ calculate_ema [1; 2; 3] 14 = Ok None
  /\ calculate_rsi [1; 2; 3] 14 = None
  /\ calculate_atr [1; 2; 3] 14 = Raise IndexError
  /\ ((length [1; 2; 3] < 14)%nat -> atr_or_one [1; 2; 3] = Ok 1).
Proof.
  split; [vm_compute; lia|].
  apply (C3_indicators_on_short_series [1; 2; 3] 14). vm_compute. lia.
Defined.

(** ** Means and sums *)

Lemma inject_nat_succ (n : nat) :
  inject_Z (Z.of_nat (S n)) == inject_Z (Z.of_nat n) + 1.
Proof. rewrite Nat2Z.inj_succ, <- Z.add_1_r, inject_Z_plus. reflexivity. Qed.

Lemma inject_nat_pos (n : nat) : (0 < n)%nat -> 0 < inject_Z (Z.of_nat n).
Proof.
  intros Hn. change 0 with (inject_Z 0). rewrite <- Zlt_Qlt. lia.
Qed.

Lemma Qsum_le_bound (m : Q) (l : list Q) :
  Forall (fun x => x <= m) l ->
  Qsum l <= inject_Z (Z.of_nat (length l)) * m.
Proof.
  induction 1 as [|a l Ha _ IH].
  - change (0 <= 0 * m). lra.
  - change (Qsum (a :: l)) with (a + Qsum l).
    change (length (a :: l)) with (S (length l)).
    rewrite inject_nat_succ. nra.
Qed.

Lemma Qsum_nonneg (l : list Q) :
  Forall (fun x => 0 <= x) l -> 0 <= Qsum l.
Proof.
  induction 1 as [|a l Ha _ IH]; simpl; [lra|].
  change (0 <= a + Qsum l). lra.
Qed.

Lemma mean_le_bound (m : Q) (l : list Q) :
  (0 < length l)%nat -> Forall (fun x => x <= m) l -> mean l <= m.
Proof.
  intros Hlen Hall. unfold mean.
  apply Qle_shift_div_r; [apply inject_nat_pos, Hlen|].
  rewrite Qmult_comm. apply Qsum_le_bound, Hall.
Qed.

Lemma mean_nonneg (l : list Q) :
  Forall (fun x => 0 <= x) l -> 0 <= mean_or_zero l.
Proof.
  intros Hall. destruct l as [|a l]; [simpl; lra|].
  change (0 <= mean (a :: l)). unfold mean.
  apply Qle_shift_div_l.
  - apply inject_nat_pos. simpl. lia.
  - rewrite Qmult_0_l. apply Qsum_nonneg, Hall.
Qed.

Lemma mean_zero_sum (l : list Q) :
  Qsum l == 0 -> mean_or_zero l == 0.
Proof.
  intros Hsum. destruct l as [|a l]; [reflexivity|].
  change (mean (a :: l) == 0). unfold mean. rewrite Hsum.
  unfold Qdiv. apply Qmult_0_l.
Qed.

(** ** Monotone series *)

Lemma increasing_below_last (prices : list Q) (lp : Q) :
  strictly_increasing prices -> last prices = Some lp ->
  Forall (fun x => x <= lp) prices.
Proof.
  induction prices as [|a [|b rest] IH]; intros Hinc Hlast.
  - constructor.
  - simpl in Hlast. injection Hlast as <-. repeat constructor. lra.
  - destruct Hinc as [Hab Hinc].
    change (last (a :: b :: rest)) with (last (b :: rest)) in Hlast.
    specialize (IH Hinc Hlast). constructor; [|exact IH].
    inversion IH; subst. lra.
Qed.

Lemma pQ_ge_1 (p : positive) : 1 <= pQ p.
Proof. unfold pQ, Qle. simpl. lia. Qed.

Lemma smoothing_factor_bounds (p : positive) :
  0 < 2 / (pQ p + 1) /\ 2 / (pQ p + 1) <= 1.
Proof.
  pose proof (pQ_ge_1 p) as Hp. split.
  - apply Qlt_shift_div_l; lra.
  - apply Qle_shift_div_r; lra.
Qed.

Lemma ema_step_below (k e p q : Q) :
  0 < k -> k <= 1 -> e <= p -> p < q -> ema_step k e q <= q.
Proof. intros Hk0 Hk1 Hep Hpq. unfold ema_step. nra. Qed.

Lemma ema_fold_below (k : Q) (rest : list Q) (p0 e lp : Q) :
  0 < k -> k <= 1 ->
  strictly_increasing (p0 :: rest) -> e <= p0 ->
  last (p0 :: rest) = Some lp ->
  fold_left (ema_step k) rest e <= lp.
Proof.
  intros Hk0 Hk1. revert p0 e.
  induction rest as [|p1 rest IH]; intros p0 e Hinc He Hlast.
  - simpl in *. injection Hlast as <-. exact He.
  - destruct Hinc as [H01 Hinc]. simpl fold_left.
    apply (IH p1); [exact Hinc | | exact Hlast].
    apply ema_step_below with (p := p0); assumption.
Qed.

(** C6: on a strictly increasing series at least as long as the period,
    SMA and EMA both return a value, and each is at most the last price. *)
Theorem C6_sma_ema_at_most_last_price (prices : list Q) (period : positive) :
  strictly_increasing prices ->
  (pnat period <= length prices)%nat ->
  exists sma ema last_price,
    calculate_sma prices period = Some sma
    /\ calculate_ema prices period = Ok (Some ema)
    /\ last prices = Some last_price
    /\ sma <= last_price
    /\ ema <= last_price.
Proof.
  intros Hinc Hlen.
  assert (Hp : (0 < pnat period)%nat) by (unfold pnat; lia).
  destruct (last prices) as [lp|] eqn:Hlast.
  2:{ apply last_None in Hlast. subst prices. simpl in Hlen. lia. }
  pose proof (increasing_below_last prices lp Hinc Hlast) as Hall.
  unfold calculate_sma, calculate_ema.
  destruct (Nat.leb_spec (pnat period) (length prices)); [|lia].
  destruct (Nat.ltb_spec (length prices) (pnat period)); [lia|].
  destruct prices as [|p0 rest]; [simpl in Hlen; lia|].
  eexists _, _, lp. repeat split.
  - apply mean_le_bound.
    + unfold last_n. rewrite length_drop. lia.
    + unfold last_n. apply Forall_drop, Hall.
  - destruct (smoothing_factor_bounds period) as [Hk0 Hk1].
    apply ema_fold_below with (p0 := p0); auto. lra.
Qed.

Lemma C6_sma_ema_at_most_last_price_witness :
  exists sma ema last_price,
    calculate_sma [1; 2; 4; 7] 3 = Some sma
    /\ calculate_ema [1; 2; 4; 7] 3 = Ok (Some ema)
    /\ last [1; 2; 4; 7] = Some last_price
    /\ sma <= last_price
    /\ ema <= last_price.
Proof.
  apply (C6_sma_ema_at_most_last_price [1; 2; 4; 7] 3).
  - simpl. repeat split; reflexivity.
  - vm_compute. lia.
Defined.

(** ** Comparisons *)

Lemma Qltb_lt (a b : Q) : Qltb a b = true <-> a < b.
Proof.
  unfold Qltb. rewrite negb_true_iff. split.
  - intros H. apply Qnot_le_lt. intros Hle.
    apply Qle_bool_iff in Hle. congruence.
  - intros H. destruct (Qle_bool b a) eqn:E; [|reflexivity].
    apply Qle_bool_iff in E. lra.
Qed.

Lemma Qltb_ge (a b : Q) : Qltb a b = false <-> b <= a.
Proof.
  unfold Qltb. rewrite negb_false_iff. apply Qle_bool_iff.
Qed.

(** ** Gains and losses *)

Lemma gains_nonneg (prices : list Q) :
  Forall (fun x => 0 <= x) (gains prices).
Proof.
  unfold gains. apply List.Forall_forall. intros x Hx.
  apply list_elem_of_In, list_elem_of_filter in Hx. destruct Hx as [Hx _].
  apply Qltb_lt in Hx. lra.
Qed.

Lemma losses_nonneg (prices : list Q) :
  Forall (fun x => 0 <= x) (losses prices).
Proof.
  unfold losses. apply List.Forall_forall. intros x Hx.
  apply in_map_iff in Hx. destruct Hx as (d & <- & Hd).
  apply list_elem_of_In, list_elem_of_filter in Hd. destruct Hd as [Hd _].
  apply Qltb_ge in Hd. lra.
Qed.

(** [100 - 100 / (1 + rs)] for a non-negative relative strength *)
Lemma rsi_formula_bounds (rs : Q) :
  0 <= rs -> 0 <= 100 - 100 / (1 + rs) /\ 100 - 100 / (1 + rs) <= 100.
Proof.
  intros Hrs.
  assert (H1 : 100 / (1 + rs) <= 100) by (apply Qle_shift_div_r; lra).
  assert (H2 : 0 <= 100 / (1 + rs)) by (apply Qle_shift_div_l; lra).
  lra.
Qed.

(** C7: on a series at least as long as the period RSI returns a value in
    [[0, 100]], and that value is 100 itself when the losses sum to 0. *)
Theorem C7_rsi_bounded (prices : list Q) (period : positive) :
  (pnat period <= length prices)%nat ->
  exists rsi,
    calculate_rsi prices period = Some rsi
    /\ 0 <= rsi /\ rsi <= 100
    /\ (Qsum (losses prices) == 0 -> rsi = 100).
Proof.
  intros Hlen. unfold calculate_rsi.
  destruct (Nat.ltb_spec (length prices) (pnat period)); [lia|].
  pose proof (mean_nonneg _ (gains_nonneg prices)) as Hgain.
  pose proof (mean_nonneg _ (losses_nonneg prices)) as Hloss.
  cbv zeta.
  destruct (Qeq_bool (mean_or_zero (losses prices)) 0) eqn:Hzero.
  - exists 100. repeat split; lra.
  - eexists. split; [reflexivity|].
    assert (Hpos : 0 < mean_or_zero (losses prices)).
    { apply Qeq_bool_neq in Hzero. lra. }
    assert (Hrs : 0 <= mean_or_zero (gains prices) / mean_or_zero (losses prices)).
    { apply Qle_shift_div_l; [exact Hpos | lra]. }
    destruct (rsi_formula_bounds _ Hrs) as [Hlo Hhi].
    repeat split; [exact Hlo | exact Hhi |].
    intros Hsum. apply mean_zero_sum in Hsum. lra.
Qed.

Lemma C7_rsi_bounded_witness :
  exists rsi,
    calculate_rsi [1; 2; 1; 3] 2 = Some rsi
    /\ 0 <= rsi /\ rsi <= 100
    /\ (Qsum (losses [1; 2; 1; 3]) == 0 -> rsi = 100).
Proof.
  apply (C7_rsi_bounded [1; 2; 1; 3] 2). vm_compute. lia.
Defined.

Example rsi_without_losses : calculate_rsi [1; 2; 3] 2 = Some 100.
Proof. reflexivity. Qed.

Example rsi_mixed : calculate_rsi [1; 2; 1; 3] 2 = Some (100 - 100 / (1 + (3 # 2) / 1)).
Proof. reflexivity. Qed.

(** ** The trend loader *)

Lemma entry_of_app (s : list Q) (p : Q) : entry_of (s ++ [p]) = Some (s ++ [p]).
Proof. destruct s; reflexivity. Qed.

Lemma add_price_lookup (m : gmap string (list Q)) (t' t : string) (p : Q)
    (s : list Q) :
  m !! t = entry_of s ->
  add_price m (t', p) !! t
  = entry_of (s ++ (if String.eqb t' t then [p] else [])).
Proof.
  intros Hm. unfold add_price.
  destruct (String.eqb_spec t' t) as [->|Hne].
  - rewrite lookup_insert_eq, entry_of_app. f_equal. f_equal.
    destruct (m !! t) as [l|] eqn:E.
    + rewrite E. simpl. destruct s; simpl in Hm; congruence.
    + rewrite lookup_insert_eq. simpl. destruct s; simpl in Hm; congruence.
  - rewrite app_nil_r, lookup_insert_ne by exact Hne.
    destruct (m !! t'); [exact Hm|].
    rewrite lookup_insert_ne by exact Hne. exact Hm.
Qed.

Lemma add_record_lookup (record : Snapshot) (m : gmap string (list Q))
    (t : string) (s : list Q) :
  m !! t = entry_of s ->
  add_record m record !! t
  = entry_of (s ++ map snd (List.filter (fun item => String.eqb (fst item) t) record)).
Proof.
  unfold add_record. revert m s.
  induction record as [|[t' p] record IH]; intros m s Hm.
  - simpl. rewrite app_nil_r. exact Hm.
  - change (fold_left add_price ((t', p) :: record) m)
      with (fold_left add_price record (add_price m (t', p))).
    rewrite (IH _ _ (add_price_lookup m t' t p s Hm)).
    rewrite <- app_assoc. simpl. destruct (String.eqb t' t); reflexivity.
Qed.

Lemma add_records_lookup (records : list Snapshot) (m : gmap string (list Q))
    (t : string) (s : list Q) :
  m !! t = entry_of s ->
  fold_left add_record records m !! t = entry_of (s ++ series_of t records).
Proof.
  revert m s. induction records as [|record records IH]; intros m s Hm.
  - simpl. rewrite app_nil_r. exact Hm.
  - change (fold_left add_record (record :: records) m)
      with (fold_left add_record records (add_record m record)).
    rewrite (IH _ _ (add_record_lookup record m t s Hm)).
    rewrite <- app_assoc. reflexivity.
Qed.

Lemma mongo_limit_nil {A : Type} (n : nat) (docs : list A) :
  mongo_limit n docs = [] <-> docs = [].
Proof.
  destruct n as [|n]; simpl; [tauto|].
  destruct docs; simpl; split; congruence.
Qed.

Lemma history_records_nil (self : TradingStrategy) :
  history_records self = [] <-> market_data_coll (db self) = [].
Proof.
  unfold history_records. rewrite mongo_limit_nil.
  split; intros H.
  - apply (f_equal (@rev Snapshot)) in H. rewrite rev_involutive in H. exact H.
  - rewrite H. reflexivity.
Qed.

Lemma _get_trends_empty (self : TradingStrategy) :
  market_data_coll (db self) = [] ->
  _get_trends self = TrendsList ["Error: No historical data found"%string].
Proof.
  intros Hcoll. apply history_records_nil in Hcoll.
  unfold _get_trends. rewrite Hcoll. reflexivity.
Qed.

(** C4, amended: without any stored snapshot [_get_trends] returns the
    one-element error list in place of the dictionary, which a caller can
    tell from every dictionary (the empty one included); with at least one
    snapshot it returns a dictionary in which each ticker is mapped to its
    prices in the order of the snapshots returned by the store. *)
Theorem C4_trend_loader (self : TradingStrategy) :
  (market_data_coll (db self) = [] ->
     _get_trends self = TrendsList ["Error: No historical data found"%string]
     /\ forall m, _get_trends self <> TrendsDict m)
  /\ (market_data_coll (db self) <> [] ->
     exists m,
       _get_trends self = TrendsDict m
       /\ forall t, m !! t = entry_of (series_of t (history_records self))).
Proof.
  split; intros Hcoll.
  - rewrite (_get_trends_empty self Hcoll). split; [reflexivity | discriminate].
  - unfold _get_trends.
    destruct (history_records self) as [|record records] eqn:Hrec.
    { apply history_records_nil in Hrec. contradiction. }
    eexists. split; [reflexivity|]. intros t.
    apply (add_records_lookup (record :: records) ∅ t []).
    apply lookup_empty.
Qed.

Lemma C4_trend_loader_witness :
  (_get_trends empty_history_strategy
   = TrendsList ["Error: No historical data found"%string]
   /\ forall m, _get_trends empty_history_strategy <> TrendsDict m)
  /\ exists m,
       _get_trends rising_strategy = TrendsDict m
       /\ forall t,
            m !! t = entry_of (series_of t (history_records rising_strategy)).
Proof.
  split.
  - apply (C4_trend_loader empty_history_strategy). reflexivity.
  - apply (C4_trend_loader rising_strategy). vm_compute. discriminate.
Defined.

Example rising_series :
  loaded_trends rising_strategy !! "AAA"%string
  = Some (map (fun i => inject_Z (Z.of_nat i)) (seq 100 21)).
Proof. vm_compute. reflexivity. Qed.


(** ** The decision for one ticker *)

Lemma calculate_ema_total (prices : list Q) (period : positive) :
  exists ema, calculate_ema prices period = Ok ema.
Proof.
  unfold calculate_ema.
  destruct (Nat.ltb_spec (length prices) (pnat period)) as [|Hlen]; [eauto|].
  destruct prices; [|eauto].
  simpl in Hlen. unfold pnat in Hlen. lia.
Qed.

Lemma atr_or_one_total (prices : list Q) : exists v, atr_or_one prices = Ok v.
Proof.
  destruct (Nat.lt_ge_cases (length prices) 14) as [Hlen|Hlen].
  - exists 1. apply atr_or_one_short, Hlen.
  - destruct (calculate_atr_long prices 14) as [v Hv]; [unfold pnat; lia|].
    exists v. unfold atr_or_one. rewrite Hv. reflexivity.
Qed.

Lemma atr_or_one_value (prices : list Q) (v : Q) :
  calculate_atr prices 14 = Ok v -> atr_or_one prices = Ok v.
Proof. intros Hv. unfold atr_or_one. rewrite Hv. reflexivity. Qed.

(** [_get_predicate] on a dictionary of trends, once the values of ATR,
    the multipliers and EMA are named. *)
Lemma _get_predicate_on_dict (self : TradingStrategy) (messages : list message)
    (instrument : Instrument) (current_price : Q) (price_change : num)
    (m : gmap string (list Q)) (atr_value : Q) (sl_multiplier tp_multiplier : num)
    (ema : option Q) :
  let t := ticker instrument in
  let prices := default [] (m !! t) in
  atr_or_one prices = Ok atr_value ->
  _calculate_sl_tp self instrument atr_value = (sl_multiplier, tp_multiplier) ->
  calculate_ema prices (period self) = Ok ema ->
  _get_predicate self messages instrument current_price price_change (TrendsDict m)
  = if nle price_change (nneg sl_multiplier)
       && Qltb 0 (_get_security_balance self instrument)
    then Ok (messages ++ [MsgStopLoss t
               (nsub current_price (nmul sl_multiplier atr_value))])
    else if nge price_change tp_multiplier
            && Qltb 0 (_get_security_balance self instrument)
    then Ok (messages ++ [MsgTakeProfit t
               (nadd current_price (nmul tp_multiplier atr_value))])
    else Ok (trend_rules self messages t current_price
               (default 0 (forecast self !! t))
               (calculate_sma prices (period self)) ema
               (calculate_rsi prices (period self))).
Proof.
  intros t prices Hatr Hmult Hema. unfold _get_predicate, trends_get.
  fold t. rewrite bind_Ok. fold prices.
  rewrite Hatr, bind_Ok, Hmult, Hema, bind_Ok. reflexivity.
Qed.

(** With a dictionary of trends the decision never raises. *)
Lemma _get_predicate_total (self : TradingStrategy) (messages : list message)
    (instrument : Instrument) (current_price : Q) (price_change : num)
    (m : gmap string (list Q)) :
  exists messages',
    _get_predicate self messages instrument current_price price_change
      (TrendsDict m) = Ok messages'.
Proof.
  destruct (atr_or_one_total (default [] (m !! ticker instrument))) as [atr Hatr].
  destruct (calculate_ema_total (default [] (m !! ticker instrument)) (period self))
    as [ema Hema].
  destruct (_calculate_sl_tp self instrument atr) as [slm tpm] eqn:Hmult.
  rewrite (_get_predicate_on_dict _ _ _ _ _ _ _ _ _ _ Hatr Hmult Hema).
  destruct (_ && _); [eauto|]. destruct (_ && _); eauto.
Qed.

(** C1: for a ticker held with a positive balance the decision follows a
    fixed order: the stop-loss test [price_change <= -sl_multiplier] first,
    giving a SELL with [current_price - sl_multiplier * atr_value]; else the
    take-profit test [price_change >= tp_multiplier], giving a SELL with
    [current_price + tp_multiplier * atr_value]; the trend rules only when
    both tests fail. *)
Theorem C1_exit_priority (self : TradingStrategy) (messages : list message)
    (instrument : Instrument) (current_price : Q) (price_change : num)
    (m : gmap string (list Q)) :
  let t := ticker instrument in
  let prices := default [] (m !! t) in
  0 < _get_security_balance self instrument ->
  exists atr_value sl_multiplier tp_multiplier ema,
    atr_or_one prices = Ok atr_value
    /\ _calculate_sl_tp self instrument atr_value = (sl_multiplier, tp_multiplier)
    /\ calculate_ema prices (period self) = Ok ema
    /\ _get_predicate self messages instrument current_price price_change
         (TrendsDict m)
       = if nle price_change (nneg sl_multiplier)
         then Ok (messages ++ [MsgStopLoss t
                    (nsub current_price (nmul sl_multiplier atr_value))])
         else if nge price_change tp_multiplier
         then Ok (messages ++ [MsgTakeProfit t
                    (nadd current_price (nmul tp_multiplier atr_value))])
         else Ok (trend_rules self messages t current_price
                    (default 0 (forecast self !! t))
                    (calculate_sma prices (period self)) ema
                    (calculate_rsi prices (period self))).
Proof.
  intros t prices Hbal.
  destruct (atr_or_one_total prices) as [atr Hatr].
  destruct (calculate_ema_total prices (period self)) as [ema Hema].
  destruct (_calculate_sl_tp self instrument atr) as [slm tpm] eqn:Hmult.
  exists atr, slm, tpm, ema. repeat split; try assumption.
  rewrite (_get_predicate_on_dict _ _ _ _ _ _ _ _ _ _ Hatr Hmult Hema).
  apply Qltb_lt in Hbal. fold t prices. rewrite Hbal, !andb_true_r.
  reflexivity.
Qed.

Lemma C1_exit_priority_witness :
  0 < _get_security_balance held_strategy share_AAA
  /\ exists atr_value sl_multiplier tp_multiplier ema,
       let t := ticker share_AAA in
       let prices := default [] (loaded_trends held_strategy !! t) in
       atr_or_one prices = Ok atr_value
       /\ _calculate_sl_tp held_strategy share_AAA atr_value
          = (sl_multiplier, tp_multiplier)
       /\ calculate_ema prices (period held_strategy) = Ok ema
       /\ _get_predicate held_strategy [] share_AAA 80 (Fin (-20))
            (TrendsDict (loaded_trends held_strategy))
          = if nle (Fin (-20)) (nneg sl_multiplier)
            then Ok ([] ++ [MsgStopLoss t
                       (nsub 80 (nmul sl_multiplier atr_value))])
            else if nge (Fin (-20)) tp_multiplier
            then Ok ([] ++ [MsgTakeProfit t
                       (nadd 80 (nmul tp_multiplier atr_value))])
            else Ok (trend_rules held_strategy [] t 80
                       (default 0 (forecast held_strategy !! t))
                       (calculate_sma prices (period held_strategy)) ema
                       (calculate_rsi prices (period held_strategy))).
Proof.
  split; [reflexivity|].
  apply (C1_exit_priority held_strategy [] share_AAA 80 (Fin (-20))
           (loaded_trends held_strategy)).
  reflexivity.
Defined.

Example held_cycle :
  exists stop_loss,
    make_predicate held_strategy = Ok [MsgStopLoss "AAA" (Fin stop_loss)]
    /\ stop_loss == 75.
Proof. eexists. split; [vm_compute; reflexivity | reflexivity]. Qed.

(** ** A zero ATR *)

Lemma np_div_by_zero (a b : Q) :
  b == 0 -> 0 <= a -> np_div a b = PInf \/ np_div a b = NaN.
Proof.
  intros Hb Ha. unfold np_div, inf_times.
  apply Qeq_bool_iff in Hb. rewrite Hb.
  destruct (Qltb 0 a); [left; reflexivity|].
  apply Qltb_ge in Ha. rewrite Ha. right; reflexivity.
Qed.

Lemma stop_test_fails (price_change sl_multiplier : num) :
  sl_multiplier = PInf \/ sl_multiplier = NaN ->
  price_change <> NInf ->
  nle price_change (nneg sl_multiplier) = false.
Proof.
  intros [-> | ->] Hpc; destruct price_change; try reflexivity; congruence.
Qed.

Lemma take_test_fails (price_change tp_multiplier : num) :
  tp_multiplier = PInf \/ tp_multiplier = NaN ->
  price_change <> PInf ->
  nge price_change tp_multiplier = false.
Proof.
  intros [-> | ->] Hpc; destruct price_change; try reflexivity; congruence.
Qed.

Lemma halved_nonneg (type : string) (x : Q) :
  0 <= x -> 0 <= (if String.eqb type "share" then x else x / 2).
Proof.
  intros Hx. destruct (String.eqb type "share"); [exact Hx|].
  apply Qle_shift_div_l; lra.
Qed.

(** C5, as the claim states it, fails: with a negative stop-loss setting
    and a zero ATR the stop-loss multiplier is [-inf], the test
    [price_change <= -sl_multiplier] succeeds, and the held ticker gets a
    stop-loss SELL (at price [nan]) instead of a trend evaluation. *)
Lemma C5_exit_fires_at_zero_atr :
  (exists atr_value,
     calculate_atr
       (default [] (loaded_trends negative_stop_strategy !! "AAA"%string)) 14
     = Ok atr_value
     /\ atr_value == 0)
  /\ make_predicate negative_stop_strategy = Ok [MsgStopLoss "AAA" NaN]
  /\ (forall forecast_prob sma ema rsi,
        make_predicate negative_stop_strategy
        <> Ok (trend_rules negative_stop_strategy [] "AAA" 50
                 forecast_prob sma ema rsi)).
Proof.
  split; [|split].
  - eexists. split; [vm_compute; reflexivity | reflexivity].
  - vm_compute. reflexivity.
  - intros forecast_prob sma ema rsi.
    replace (make_predicate negative_stop_strategy)
      with (Ok (A := list message) [MsgStopLoss "AAA" NaN])
      by (vm_compute; reflexivity).
    unfold trend_rules.
    destruct sma; [destruct ema|]; try discriminate.
    destruct (_ && _); [discriminate|].
    destruct (_ && _); discriminate.
Qed.

(** C5, amended: when the ATR of a ticker evaluates to 0, the stop-loss and
    take-profit settings are not negative and the price change is not
    infinite, the decision does not raise, both exit tests fail (the
    multipliers are [inf] or [nan]) and the outcome is that of the trend
    rules. *)
Theorem C5_zero_atr_falls_through (self : TradingStrategy)
    (messages : list message) (instrument : Instrument) (current_price : Q)
    (price_change : num) (m : gmap string (list Q)) (atr_value : Q) :
  let t := ticker instrument in
  let prices := default [] (m !! t) in
  calculate_atr prices 14 = Ok atr_value ->
  atr_value == 0 ->
  0 <= sl self -> 0 <= tp self ->
  price_change <> PInf -> price_change <> NInf ->
  exists ema,
    calculate_ema prices (period self) = Ok ema
    /\ _get_predicate self messages instrument current_price price_change
         (TrendsDict m)
       = Ok (trend_rules self messages t current_price
               (default 0 (forecast self !! t))
               (calculate_sma prices (period self)) ema
               (calculate_rsi prices (period self))).
Proof.
  intros t prices Hatr Hzero Hsl Htp Hpinf Hninf.
  destruct (calculate_ema_total prices (period self)) as [ema Hema].
  exists ema. split; [exact Hema|].
  rewrite (_get_predicate_on_dict self messages instrument current_price
             price_change m atr_value _ _ ema
             (atr_or_one_value _ _ Hatr) eq_refl Hema).
  rewrite stop_test_fails, take_test_fails; try assumption.
  - reflexivity.
  - apply np_div_by_zero; [exact Hzero | apply halved_nonneg, Htp].
  - apply np_div_by_zero; [exact Hzero | apply halved_nonneg, Hsl].
Qed.

Lemma C5_zero_atr_falls_through_witness :
  exists atr_value,
    let t := ticker share_AAA in
    let prices := default [] (loaded_trends constant_strategy !! t) in
    calculate_atr prices 14 = Ok atr_value
    /\ atr_value == 0
    /\ 0 <= sl constant_strategy /\ 0 <= tp constant_strategy
    /\ exists ema,
         calculate_ema prices (period constant_strategy) = Ok ema
         /\ _get_predicate constant_strategy [] share_AAA 50 (Fin 0)
              (TrendsDict (loaded_trends constant_strategy))
            = Ok (trend_rules constant_strategy [] t 50
                    (default 0 (forecast constant_strategy !! t))
                    (calculate_sma prices (period constant_strategy)) ema
                    (calculate_rsi prices (period constant_strategy))).
Proof.
  pose (t := ticker share_AAA).
  pose (prices := default [] (loaded_trends constant_strategy !! t)).
  assert (Hatr : { v | calculate_atr prices 14 = Ok v /\ v == 0 }).
  { eexists. split; [vm_compute; reflexivity | reflexivity]. }
  destruct Hatr as (v & Hv & Hzero).
  exists v. split; [exact Hv|]. split; [exact Hzero|].
  split; [discriminate|]. split; [discriminate|].
  apply (C5_zero_atr_falls_through constant_strategy [] share_AAA 50 (Fin 0)
           (loaded_trends constant_strategy) v Hv Hzero);
    discriminate.
Defined.

Example constant_cycle : make_predicate constant_strategy = Ok [MsgHold "AAA"].
Proof. vm_compute. reflexivity. Qed.

(** ** A flat position *)

(** C8, as the claim states it, fails: a flat ticker quoted at 0 has the
    current price as its average buy price, but the percentage is then
    0 / 0 on Python numbers, which raises [ZeroDivisionError] and ends the
    cycle. *)
Lemma C8_flat_position_at_price_zero :
  find_buy_orders zero_price_strategy (uid share_AAA) = []
  /\ average_buy_price [] 0 = PyFloat 0
  /\ price_change_pct 0 (average_buy_price [] 0) = Raise ZeroDivisionError
  /\ make_predicate zero_price_strategy = Raise ZeroDivisionError.
Proof. repeat split. Qed.

(** C8, amended: for a ticker without open buy orders the average buy
    price is the current price, and when that price is not 0 the price
    change is computed and is 0. *)
Theorem C8_flat_position (self : TradingStrategy) (instrument : Instrument)
    (current_price : Q) :
  find_buy_orders self (uid instrument) = [] ->
  ~ current_price == 0 ->
  exists price_change,
    let buy_price :=
      average_buy_price (map price (find_buy_orders self (uid instrument)))
        current_price in
    buy_price = PyFloat current_price
    /\ price_change_pct current_price buy_price = Ok (Fin price_change)
    /\ price_change == 0.
Proof.
  intros Hflat Hprice. rewrite Hflat. simpl map.
  unfold average_buy_price, price_change_pct, py_div.
  destruct (Qeq_bool current_price 0) eqn:E.
  - apply Qeq_bool_iff in E. contradiction.
  - rewrite bind_Ok. eexists. repeat split. field. exact Hprice.
Qed.

Lemma C8_flat_position_witness :
  find_buy_orders rising_strategy (uid share_AAA) = []
  /\ ~ 120 == 0
  /\ exists price_change,
       let buy_price :=
         average_buy_price
           (map price (find_buy_orders rising_strategy (uid share_AAA))) 120 in
       buy_price = PyFloat 120
       /\ price_change_pct 120 buy_price = Ok (Fin price_change)
       /\ price_change == 0.
Proof.
  split; [reflexivity|]. split; [discriminate|].
  apply (C8_flat_position rising_strategy share_AAA 120);
    [reflexivity | discriminate].
Defined.

(** ** Tickers without a forecast *)

(** C10: a ticker missing from the forecast map gets probability 0, below
    both thresholds, so with SMA and EMA present and neither exit taken the
    decision is HOLD. *)
Theorem C10_no_forecast_holds (self : TradingStrategy)
    (messages : list message) (instrument : Instrument) (current_price : Q)
    (price_change : num) (m : gmap string (list Q))
    (atr_value : Q) (sl_multiplier tp_multiplier : num) (sma ema : Q) :
  let t := ticker instrument in
  let prices := default [] (m !! t) in
  let sec_balance := _get_security_balance self instrument in
  forecast self !! t = None ->
  atr_or_one prices = Ok atr_value ->
  _calculate_sl_tp self instrument atr_value = (sl_multiplier, tp_multiplier) ->
  calculate_sma prices (period self) = Some sma ->
  calculate_ema prices (period self) = Ok (Some ema) ->
  nle price_change (nneg sl_multiplier) && Qltb 0 sec_balance = false ->
  nge price_change tp_multiplier && Qltb 0 sec_balance = false ->
  default 0 (forecast self !! t) = 0
  /\ Qle_bool (2 # 5) (default 0 (forecast self !! t)) = false
  /\ Qle_bool (3 # 5) (default 0 (forecast self !! t)) = false
  /\ _get_predicate self messages instrument current_price price_change
       (TrendsDict m) = Ok (messages ++ [MsgHold t]).
Proof.
  intros t prices sec_balance Hforecast Hatr Hmult Hsma Hema Hstop Htake.
  rewrite Hforecast. repeat split.
  rewrite (_get_predicate_on_dict _ _ _ _ _ _ _ _ _ _ Hatr Hmult Hema).
  fold t prices sec_balance. rewrite Hstop, Htake, Hforecast, Hsma.
  unfold trend_rules. simpl default.
  change (Qle_bool (2 # 5) 0) with false.
  change (Qle_bool (3 # 5) 0) with false.
  rewrite !andb_false_r. reflexivity.
Qed.

Lemma C10_no_forecast_holds_witness :
  exists atr_value sl_multiplier tp_multiplier sma ema,
    let self := no_forecast_strategy in
    let t := ticker share_AAA in
    let prices := default [] (loaded_trends self !! t) in
    let sec_balance := _get_security_balance self share_AAA in
    forecast self !! t = None
    /\ atr_or_one prices = Ok atr_value
    /\ _calculate_sl_tp self share_AAA atr_value = (sl_multiplier, tp_multiplier)
    /\ calculate_sma prices (period self) = Some sma
    /\ calculate_ema prices (period self) = Ok (Some ema)
    /\ nle (Fin 0) (nneg sl_multiplier) && Qltb 0 sec_balance = false
    /\ nge (Fin 0) tp_multiplier && Qltb 0 sec_balance = false
    /\ default 0 (forecast self !! t) = 0
    /\ Qle_bool (2 # 5) (default 0 (forecast self !! t)) = false
    /\ Qle_bool (3 # 5) (default 0 (forecast self !! t)) = false
    /\ _get_predicate self [] share_AAA 120 (Fin 0)
         (TrendsDict (loaded_trends self)) = Ok ([] ++ [MsgHold t]).
Proof.
  eexists _, _, _, _, _. cbv zeta.
  split; [reflexivity|].
  split; [vm_compute; reflexivity|].
  split; [reflexivity|].
  split; [vm_compute; reflexivity|].
  split; [vm_compute; reflexivity|].
  split; [apply andb_false_r|].
  split; [apply andb_false_r|].
  eapply (C10_no_forecast_holds no_forecast_strategy [] share_AAA 120 (Fin 0)
            (loaded_trends no_forecast_strategy)).
  - reflexivity.
  - vm_compute. reflexivity.
  - reflexivity.
  - vm_compute. reflexivity.
  - vm_compute. reflexivity.
  - apply andb_false_r.
  - apply andb_false_r.
Defined.

(** ** The reverse flag *)

Lemma app_one_neq {A : Type} (l : list A) (x : A) : l <> l ++ [x].
Proof.
  intros H. apply (f_equal (@length A)) in H.
  rewrite length_app in H. simpl in H. lia.
Qed.

(** The trend rules under the two settings of the flag. *)
Lemma trend_rules_reverse (self : TradingStrategy) (messages : list message)
    (t : string) (current_price forecast_prob : Q) (sma ema rsi : option Q) :
  let off := trend_rules (with_reverse false self) messages t current_price
               forecast_prob sma ema rsi in
  let on := trend_rules (with_reverse true self) messages t current_price
              forecast_prob sma ema rsi in
  (exists a, off = messages ++ [MsgAction a t]
             /\ on = messages ++ [MsgAction (opposite a) t])
  \/ ((forall a, off <> messages ++ [MsgAction a t]) /\ on = off).
Proof.
  unfold trend_rules. simpl is_reverse. cbv zeta.
  destruct sma as [sma|], ema as [ema|];
    try (right; split; [intros a; apply app_one_neq | reflexivity]).
  destruct (_ && _).
  { left. exists BUY. split; reflexivity. }
  destruct (_ && _).
  { left. exists SELL. split; reflexivity. }
  right. split; [|reflexivity].
  intros a H. apply app_inv_head in H. discriminate H.
Qed.

(** C9: two evaluations of a ticker that differ in [is_reverse] only
    either both end in a trend action, BUY for one and SELL for the other,
    or have the same result; so a stop-loss SELL, a take-profit SELL, a HOLD
    and a skip are the same under both settings. *)
Theorem C9_reverse_only_swaps_trend_action (self : TradingStrategy)
    (messages : list message) (instrument : Instrument) (current_price : Q)
    (price_change : num) (trends : trends_t) :
  let t := ticker instrument in
  let off := _get_predicate (with_reverse false self) messages instrument
               current_price price_change trends in
  let on := _get_predicate (with_reverse true self) messages instrument
              current_price price_change trends in
  (exists a, off = Ok (messages ++ [MsgAction a t])
             /\ on = Ok (messages ++ [MsgAction (opposite a) t]))
  \/ ((forall a, off <> Ok (messages ++ [MsgAction a t])) /\ on = off).
Proof.
  intros t off on. subst off on.
  destruct trends as [l|m].
  { right. split; [intros a; discriminate | reflexivity]. }
  destruct (atr_or_one_total (default [] (m !! t))) as [atr Hatr].
  destruct (calculate_ema_total (default [] (m !! t)) (period self))
    as [ema Hema].
  destruct (_calculate_sl_tp self instrument atr) as [slm tpm] eqn:Hmult.
  rewrite (_get_predicate_on_dict (with_reverse false self) _ _ _ _ _ _ _ _ _
             Hatr Hmult Hema).
  rewrite (_get_predicate_on_dict (with_reverse true self) _ _ _ _ _ _ _ _ _
             Hatr Hmult Hema).
  fold t. simpl forecast. simpl period.
  change (_get_security_balance (with_reverse false self) instrument)
    with (_get_security_balance self instrument).
  change (_get_security_balance (with_reverse true self) instrument)
    with (_get_security_balance self instrument).
  destruct (_ && _).
  { right. split; [|reflexivity].
    intros a H. injection H as H. apply app_inv_head in H. discriminate H. }
  destruct (_ && _).
  { right. split; [|reflexivity].
    intros a H. injection H as H. apply app_inv_head in H. discriminate H. }
  destruct (trend_rules_reverse self messages t current_price
              (default 0 (forecast self !! t))
              (calculate_sma (default [] (m !! t)) (period self)) ema
              (calculate_rsi (default [] (m !! t)) (period self)))
    as [(a & Hoff & Hon) | (Hoff & Hon)].
  - left. exists a. rewrite Hoff, Hon. split; reflexivity.
  - right. split; [|rewrite Hon; reflexivity].
    intros a H. injection H as H. exact (Hoff a H).
Qed.

(** ** The cycle *)

(** A loop whose body raises at one of its items, whatever the accumulator,
    raises. *)
Lemma for_each_raises {I A : Type} (body : I -> A -> result A)
    (items : list I) (bad : I) :
  In bad items ->
  (forall acc, exists e, body bad acc = Raise e) ->
  forall acc, exists e, for_each body items acc = Raise e.
Proof.
  intros Hin Hbad.
  induction items as [|i items IH]; intros acc; [destruct Hin|].
  simpl. destruct (body i acc) as [acc'|e] eqn:Hbody.
  - rewrite bind_Ok. destruct Hin as [->|Hin].
    + destruct (Hbad acc) as [e He]. congruence.
    + apply IH, Hin.
  - exists e. reflexivity.
Qed.

Lemma evaluate_unknown_ticker (self : TradingStrategy) (trends : trends_t)
    (t : string) (current_price : Q) (messages : list message) :
  find_one_instrument self t = None ->
  evaluate_ticker self trends (t, current_price) messages = Raise TypeError.
Proof. intros Hnone. unfold evaluate_ticker. rewrite Hnone. reflexivity. Qed.

(** C2, as the claim states it, fails: with AAA known and BBB unknown to
    the directory the cycle raises [TypeError]; it returns no message list,
    hence neither the result for AAA nor a marker for BBB. *)
Lemma C2_unknown_ticker_aborts_cycle :
  market_data unknown_ticker_strategy = [("AAA"%string, 120); ("BBB"%string, 10)]
  /\ find_one_instrument unknown_ticker_strategy "AAA" = Some share_AAA
  /\ find_one_instrument unknown_ticker_strategy "BBB" = None
  /\ make_predicate unknown_ticker_strategy = Raise TypeError
  /\ ~ (exists messages, make_predicate unknown_ticker_strategy = Ok messages).
Proof.
  assert (H : make_predicate unknown_ticker_strategy = Raise TypeError)
    by (vm_compute; reflexivity).
  repeat split; try exact H.
  intros [messages Hm]. rewrite H in Hm. discriminate Hm.
Qed.

(** C2, amended: when the market snapshot contains a ticker without a
    matching instrument, the cycle as a whole ends in an exception and no
    message list is returned, for any ticker. *)
Theorem C2_unknown_ticker_raises (self : TradingStrategy) (t : string)
    (current_price : Q) :
  In (t, current_price) (market_data self) ->
  find_one_instrument self t = None ->
  exists e, make_predicate self = Raise e.
Proof.
  intros Hin Hnone. unfold make_predicate.
  apply for_each_raises with (bad := (t, current_price)); [exact Hin|].
  intros acc. exists TypeError. apply evaluate_unknown_ticker, Hnone.
Qed.

Lemma C2_unknown_ticker_raises_witness :
  In ("BBB"%string, 10) (market_data unknown_ticker_strategy)
  /\ find_one_instrument unknown_ticker_strategy "BBB" = None
  /\ exists e, make_predicate unknown_ticker_strategy = Raise e.
Proof.
  split; [right; left; reflexivity|]. split; [reflexivity|].
  apply (C2_unknown_ticker_raises unknown_ticker_strategy "BBB" 10);
    [right; left; reflexivity | reflexivity].
Defined.

(** The cycle does not test what the loader returned: without stored
    snapshots, a cycle over a non-empty market snapshot ends in an
    exception at its first ticker. *)
Lemma empty_history_cycle_raises (self : TradingStrategy) :
  market_data_coll (db self) = [] ->
  market_data self <> [] ->
  exists e, make_predicate self = Raise e.
Proof.
  intros Hcoll Hmarket. unfold make_predicate.
  destruct (market_data self) as [|[t current_price] rest]; [contradiction|].
  simpl. unfold evaluate_ticker.
  destruct (find_one_instrument self t); [|eauto].
  rewrite bind_Ok.
  destruct (price_change_pct _ _); [|eauto].
  rewrite bind_Ok. unfold _get_predicate.
  rewrite (_get_trends_empty self Hcoll). eauto.
Qed.

Example empty_history_cycle :
  make_predicate empty_history_strategy = Raise AttributeError.
Proof. reflexivity. Qed.

Example rising_cycle : make_predicate rising_strategy = Ok [MsgHold "AAA"].
Proof. vm_compute. reflexivity. Qed.

Example quiet_cycle : make_predicate quiet_strategy = Ok [].
Proof. vm_compute. reflexivity. Qed.

(** C4, as the claim states it, fails: the cycle never tests what the
    loader returned.  Without stored snapshots and over an empty market
    snapshot it returns the empty message list, exactly as a cycle that had
    data and produced no signal; over a non-empty market snapshot it ends in
    [AttributeError] at [trends.get], not in a report of missing data. *)
Lemma C4_missing_history_looks_like_no_signal :
  market_data_coll (db idle_strategy) = []
  /\ market_data_coll (db quiet_strategy) <> []
  /\ make_predicate quiet_strategy = Ok []
  /\ make_predicate idle_strategy = make_predicate quiet_strategy
  /\ market_data_coll (db empty_history_strategy) = []
  /\ make_predicate empty_history_strategy = Raise AttributeError.
Proof.
  repeat split; discriminate.
Qed.

(** * Further properties of the indicators *)

(** ** When ATR returns *)

(** X1: [calculate_atr] raises [IndexError] exactly on the series shorter
    than the period, and returns a value on all others. *)
Theorem X1_atr_raises_iff_short (prices : list Q) (period : positive) :
  (calculate_atr prices period = Raise IndexError
   <-> (length prices < pnat period)%nat)
  /\ ((exists v, calculate_atr prices period = Ok v)
      <-> (pnat period <= length prices)%nat).
Proof.
  destruct (Nat.lt_ge_cases (length prices) (pnat period)) as [Hlt|Hge].
  - pose proof (calculate_atr_short prices period Hlt) as Hr.
    split; split; intros H; try assumption; try lia.
    destruct H as [v Hv]. congruence.
  - destruct (calculate_atr_long prices period Hge) as [v Hv].
    split; split; intros H; try assumption; try lia; eauto.
    congruence.
Qed.

(** ** Bounds on ATR *)

Lemma arr_get_inv (a : list Q) (i : nat) (x : Q) :
  arr_get a i = Ok x -> a !! i = Some x.
Proof. unfold arr_get. destruct (a !! i); congruence. Qed.

Lemma arr_set_inv (a a' : list Q) (i : nat) (x : Q) :
  arr_set a i x = Ok a' -> a' = <[i:=x]> a /\ (i < length a)%nat.
Proof. unfold arr_set. destruct (decide _); [split|]; congruence. Qed.

Lemma deltas_lookup (prices : list Q) (i : nat) (a b : Q) :
  prices !! i = Some a -> prices !! S i = Some b ->
  In (b - a) (deltas prices).
Proof.
  revert i. induction prices as [|p [|q rest] IH]; intros i Ha Hb.
  - discriminate.
  - destruct i; discriminate.
  - destruct i as [|i].
    + simpl in Ha, Hb. injection Ha as <-. injection Hb as <-. left. reflexivity.
    + right. apply (IH i); assumption.
Qed.

Lemma np_max3_same (x : Q) : np_max3 x x x == x.
Proof.
  unfold np_max3. rewrite (Q.max_l x x) by lra. apply Q.max_l. lra.
Qed.

Lemma Qsum_ge_bound (m : Q) (l : list Q) :
  Forall (fun x => m <= x) l ->
  inject_Z (Z.of_nat (length l)) * m <= Qsum l.
Proof.
  induction 1 as [|a l Ha _ IH].
  - change (0 * m <= 0). lra.
  - change (Qsum (a :: l)) with (a + Qsum l).
    change (length (a :: l)) with (S (length l)).
    rewrite inject_nat_succ. nra.
Qed.

Lemma mean_ge_bound (m : Q) (l : list Q) :
  (0 < length l)%nat -> Forall (fun x => m <= x) l -> m <= mean l.
Proof.
  intros Hlen Hall. unfold mean.
  apply Qle_shift_div_l; [apply inject_nat_pos, Hlen|].
  rewrite Qmult_comm. apply Qsum_ge_bound, Hall.
Qed.

Lemma mean_between (lo hi : Q) (l : list Q) :
  (0 < length l)%nat -> Forall (fun x => lo <= x /\ x <= hi) l ->
  lo <= mean l /\ mean l <= hi.
Proof.
  intros Hlen Hall. split.
  - apply mean_ge_bound; [exact Hlen|].
    eapply Forall_impl; [exact Hall|]. simpl. tauto.
  - apply mean_le_bound; [exact Hlen|].
    eapply Forall_impl; [exact Hall|]. simpl. tauto.
Qed.

Lemma smoothing_between (period : positive) (M prev t : Q) :
  0 <= prev /\ prev <= M -> 0 <= t /\ t <= M ->
  0 <= (prev * (pQ period - 1) + t) / pQ period
  /\ (prev * (pQ period - 1) + t) / pQ period <= M.
Proof.
  intros [Hp0 HpM] [Ht0 HtM]. pose proof (pQ_ge_1 period) as Hp.
  split.
  - apply Qle_shift_div_l; [lra | nra].
  - apply Qle_shift_div_r; [lra | nra].
Qed.

(** With every step of the series at most [M] in size, ATR lies in
    [[0, M]]. *)
Lemma calculate_atr_between (prices : list Q) (period : positive) (M : Q) :
  (pnat period <= length prices)%nat ->
  0 <= M ->
  Forall (fun d => Qabs d <= M) (deltas prices) ->
  exists v, calculate_atr prices period = Ok v /\ 0 <= v /\ v <= M.
Proof.
  intros Hlen HM Hsteps. unfold calculate_atr.
  assert (Hp : (0 < pnat period)%nat) by (unfold pnat; lia).
  set (bounded := fun a : list Q =>
         length a = length prices /\ Forall (fun x => 0 <= x /\ x <= M) a).
  assert (Hzeros : bounded (replicate (length prices) 0)).
  { split; [apply length_replicate|]. apply Forall_replicate. lra. }
  destruct (for_range_ok bounded 1 (length prices) (true_range_step prices)
              (replicate (length prices) 0) Hzeros)
    as (tr & -> & Htr_len & Htr).
  { intros i a Hi [Ha_len Ha]. unfold true_range_step.
    destruct (arr_get prices i) as [pi|] eqn:Hpi;
      [|destruct (arr_get_ok prices i) as [x Hx]; [lia | congruence]].
    destruct (arr_get prices (i - 1)) as [pj|] eqn:Hpj;
      [|destruct (arr_get_ok prices (i - 1)) as [x Hx]; [lia | congruence]].
    rewrite !bind_Ok. cbv zeta.
    destruct (arr_set_ok a i
                (np_max3 (Qabs (pi - pj)) (Qabs (pi - pj)) (Qabs (pi - pj))))
      as (a' & Ha' & Hlen'); [lia|].
    exists a'. split; [exact Ha'|]. split; [lia|].
    apply arr_set_inv in Ha'. destruct Ha' as [-> _].
    apply Forall_insert; [exact Ha|].
    rewrite np_max3_same. split; [apply Qabs_nonneg|].
    apply arr_get_inv in Hpi, Hpj.
    rewrite List.Forall_forall in Hsteps. apply Hsteps.
    apply (deltas_lookup prices (i - 1)); [exact Hpj|].
    replace (S (i - 1)) with i by lia. exact Hpi. }
  rewrite bind_Ok.
  destruct (arr_set_ok (replicate (length prices) 0) (pnat period - 1)
              (mean (take (pnat period) tr))) as (atr & Hset & Hatr_len).
  { rewrite length_replicate. lia. }
  rewrite Hset, bind_Ok.
  assert (Hatr : bounded atr).
  { split; [rewrite Hatr_len; apply length_replicate|].
    apply arr_set_inv in Hset. destruct Hset as [-> _].
    apply Forall_insert; [apply Hzeros|].
    apply mean_between; [rewrite length_take; lia | apply Forall_take, Htr]. }
  destruct (for_range_ok bounded (pnat period) (length atr)
              (smoothing_step period tr) atr Hatr)
    as (atr' & -> & Hatr'_len & Hatr').
  { destruct Hatr as [Hatr_len' _].
    intros i a Hi [Ha_len Ha]. unfold smoothing_step.
    destruct (arr_get a (i - 1)) as [prev|] eqn:Hprev;
      [|destruct (arr_get_ok a (i - 1)) as [x Hx]; [lia | congruence]].
    destruct (arr_get tr i) as [t|] eqn:Ht;
      [|destruct (arr_get_ok tr i) as [x Hx]; [lia | congruence]].
    rewrite !bind_Ok.
    destruct (arr_set_ok a i ((prev * (pQ period - 1) + t) / pQ period))
      as (a' & Ha' & Hlen'); [lia|].
    exists a'. split; [exact Ha'|]. split; [lia|].
    apply arr_set_inv in Ha'. destruct Ha' as [-> _].
    apply Forall_insert; [exact Ha|].
    apply arr_get_inv in Hprev, Ht.
    rewrite List.Forall_forall in Ha, Htr.
    apply smoothing_between.
    - apply Ha. apply list_elem_of_In. eapply list_elem_of_lookup_2, Hprev.
    - apply Htr. apply list_elem_of_In. eapply list_elem_of_lookup_2, Ht. }
  rewrite bind_Ok.
  destruct (arr_last_ok atr') as [v Hv]; [lia|].
  exists v. split; [exact Hv|].
  unfold arr_last in Hv. destruct (last atr') as [x|] eqn:Hlast; [|discriminate].
  injection Hv as <-. apply last_Some_elem_of, list_elem_of_In in Hlast.
  rewrite List.Forall_forall in Hatr'. apply Hatr', Hlast.
Qed.



Lemma deltas_constant (n : nat) (c : Q) :
  Forall (fun d => Qabs d <= 0) (deltas (c :: replicate n c)).
Proof.
  induction n as [|n IH]; [constructor|].
  change (deltas (c :: replicate (S n) c))
    with ((c - c) :: deltas (c :: replicate n c)).
  constructor; [|exact IH].
  assert (H : c - c == 0) by ring. rewrite H. discriminate.
Qed.

Lemma deltas_replicate (n : nat) (c : Q) :
  Forall (fun d => Qabs d <= 0) (deltas (replicate n c)).
Proof. destruct n; [constructor | apply deltas_constant]. Qed.

(** X3: on a constant series at least as long as the period, ATR is 0. *)
Theorem X3_atr_of_constant_series (n : nat) (c : Q) (period : positive) :
  (pnat period <= n)%nat ->
  exists v, calculate_atr (replicate n c) period = Ok v /\ v == 0.
Proof.
  intros Hlen.
  destruct (calculate_atr_between (replicate n c) period 0) as (v & Hv & H0 & H1).
  - rewrite length_replicate. exact Hlen.
  - lra.
  - apply deltas_replicate.
  - exists v. split; [exact Hv | lra].
Qed.

Lemma X3_atr_of_constant_series_witness :
  exists v, calculate_atr (replicate 20 50) 14 = Ok v /\ v == 0.
Proof.
  apply (X3_atr_of_constant_series 20 50 14). vm_compute. lia.
Defined.

(** ** Bounds on the moving averages *)







Lemma ema_fold_tracks (k : Q) (rest : list Q) (p0 e lp : Q) :
  k == 1 -> e == p0 -> last (p0 :: rest) = Some lp ->
  fold_left (ema_step k) rest e == lp.
Proof.
  intros Hk. revert p0 e.
  induction rest as [|p1 rest IH]; intros p0 e He Hlast.
  - simpl in *. injection Hlast as <-. exact He.
  - simpl fold_left. apply (IH p1); [|exact Hlast].
    unfold ema_step. rewrite Hk. ring.
Qed.

(** X6: with period 1 the smoothing factor is 1 and EMA of a non-empty
    series is its last price. *)
Theorem X6_ema_of_period_one (prices : list Q) (last_price : Q) :
  last prices = Some last_price ->
  exists ema, calculate_ema prices 1 = Ok (Some ema) /\ ema == last_price.
Proof.
  intros Hlast. destruct prices as [|p0 rest]; [discriminate|].
  unfold calculate_ema.
  destruct (Nat.ltb_spec (length (p0 :: rest)) (pnat 1)) as [H|_];
    [simpl in H; unfold pnat in H; lia|].
  eexists. split; [reflexivity|].
  apply ema_fold_tracks with (p0 := p0); [reflexivity | reflexivity | exact Hlast].
Qed.

Lemma X6_ema_of_period_one_witness :
  exists ema, calculate_ema [3; 1; 2; 4] 1 = Ok (Some ema) /\ ema == 4.
Proof. apply (X6_ema_of_period_one [3; 1; 2; 4] 4). reflexivity. Defined.

(** ** RSI on falling series, and its period *)

Lemma deltas_of_decreasing (prices : list Q) :
  strictly_decreasing prices -> Forall (fun d => d < 0) (deltas prices).
Proof.
  induction prices as [|a [|b rest] IH]; intros Hdec; try constructor.
  - destruct Hdec as [Hba _]. lra.
  - apply IH. apply Hdec.
Qed.

Lemma length_deltas (prices : list Q) :
  length (deltas prices) = (length prices - 1)%nat.
Proof.
  induction prices as [|a [|b rest] IH]; try reflexivity.
  change (deltas (a :: b :: rest)) with ((b - a) :: deltas (b :: rest)).
  simpl length in *. rewrite IH. lia.
Qed.

Lemma gains_of_falls (ds : list Q) :
  Forall (fun d => d < 0) ds -> filter (fun d => Qltb 0 d = true) ds = [].
Proof.
  induction 1 as [|d ds Hd _ IH]; [reflexivity|].
  rewrite filter_cons, IH. destruct (decide _) as [H|_]; [|reflexivity].
  apply Qltb_lt in H. lra.
Qed.

Lemma losses_of_falls (ds : list Q) :
  Forall (fun d => d < 0) ds -> filter (fun d => Qltb 0 d = false) ds = ds.
Proof.
  induction 1 as [|d ds Hd _ IH]; [reflexivity|].
  rewrite filter_cons, IH. destruct (decide _) as [_|H]; [reflexivity|].
  exfalso. apply H, Qltb_ge. lra.
Qed.

Lemma Qsum_pos (l : list Q) :
  l <> [] -> Forall (fun x => 0 < x) l -> 0 < Qsum l.
Proof.
  intros Hne Hall. destruct Hall as [|a l Ha Hall]; [contradiction|].
  change (0 < a + Qsum l).
  assert (0 <= Qsum l); [|lra].
  apply Qsum_nonneg. eapply Forall_impl; [exact Hall|]. simpl. intros; lra.
Qed.

Lemma mean_pos (l : list Q) :
  l <> [] -> Forall (fun x => 0 < x) l -> 0 < mean l.
Proof.
  intros Hne Hall. unfold mean. apply Qlt_shift_div_l.
  - apply inject_nat_pos. destruct l; [contradiction | simpl; lia].
  - rewrite Qmult_0_l. apply Qsum_pos; assumption.
Qed.

Lemma mean_or_zero_pos (l : list Q) :
  l <> [] -> Forall (fun x => 0 < x) l -> 0 < mean_or_zero l.
Proof.
  intros Hne Hall. destruct l as [|x l]; [contradiction|].
  apply (mean_pos (x :: l)); assumption.
Qed.

(** X7: on a strictly decreasing series of at least two prices, and at
    least as long as the period, RSI returns 0. *)
Theorem X7_rsi_of_falling_series (prices : list Q) (period : positive) :
  strictly_decreasing prices ->
  (2 <= length prices)%nat ->
  (pnat period <= length prices)%nat ->
  exists rsi, calculate_rsi prices period = Some rsi /\ rsi == 0.
Proof.
  intros Hdec Htwo Hlen. unfold calculate_rsi.
  destruct (Nat.ltb_spec (length prices) (pnat period)); [lia|].
  pose proof (deltas_of_decreasing prices Hdec) as Hfalls.
  unfold gains, losses.
  rewrite (gains_of_falls _ Hfalls), (losses_of_falls _ Hfalls). cbv zeta.
  assert (Hne : map Qopp (deltas prices) <> []).
  { intros Hnil. apply (f_equal (@length Q)) in Hnil.
    rewrite length_map, length_deltas in Hnil. simpl in Hnil. lia. }
  assert (Hpos : 0 < mean_or_zero (map Qopp (deltas prices))).
  { apply mean_or_zero_pos; [exact Hne|].
    apply List.Forall_forall. intros y Hy. apply in_map_iff in Hy.
    destruct Hy as (d & <- & Hd).
    rewrite List.Forall_forall in Hfalls. specialize (Hfalls d Hd). lra. }
  destruct (Qeq_bool _ 0) eqn:Hzero.
  - apply Qeq_bool_iff in Hzero. lra.
  - eexists. split; [reflexivity|]. simpl mean_or_zero at 1.
    field. lra.
Qed.

Lemma X7_rsi_of_falling_series_witness :
  exists rsi, calculate_rsi [9; 7; 4; 1] 3 = Some rsi /\ rsi == 0.
Proof.
  apply (X7_rsi_of_falling_series [9; 7; 4; 1] 3).
  - simpl. repeat split; reflexivity.
  - simpl. lia.
  - vm_compute. lia.
Defined.

(** X8: the period only decides whether RSI is computed; the value is
    taken over the whole series, so two periods that both fit the series
    give the same RSI. *)
Theorem X8_rsi_ignores_period (prices : list Q) (p1 p2 : positive) :
  (pnat p1 <= length prices)%nat ->
  (pnat p2 <= length prices)%nat ->
  calculate_rsi prices p1 = calculate_rsi prices p2
  /\ exists rsi, calculate_rsi prices p1 = Some rsi.
Proof.
  intros H1 H2. unfold calculate_rsi.
  destruct (Nat.ltb_spec (length prices) (pnat p1)); [lia|].
  destruct (Nat.ltb_spec (length prices) (pnat p2)); [lia|].
  split; [reflexivity|]. cbv zeta. destruct (Qeq_bool _ 0); eauto.
Qed.

Lemma X8_rsi_ignores_period_witness :
  calculate_rsi [1; 2; 1; 3] 2 = calculate_rsi [1; 2; 1; 3] 4
  /\ exists rsi, calculate_rsi [1; 2; 1; 3] 2 = Some rsi.
Proof.
  apply (X8_rsi_ignores_period [1; 2; 1; 3] 2 4); vm_compute; lia.
Defined.

(** * Further properties of the decision *)

(** ** Exit prices *)




(** ** Holdings *)

(** X10: an instrument without an entry in the first document of the
    securities collection (or with no such document at all) has balance 0;
    entries in later documents are not read. *)
Theorem X10_balance_without_entry (self : TradingStrategy)
    (instrument : Instrument) :
  (forall sec, In sec (hd [] (securities_coll (db self))) ->
               instrument_uid sec <> uid instrument) ->
  _get_security_balance self instrument = 0.
Proof.
  intros Hnone. unfold _get_security_balance.
  destruct (securities_coll (db self)) as [|security_obj others];
    [reflexivity|].
  simpl in Hnone.
  destruct (List.find _ security_obj) as [sec|] eqn:Hfind; [|reflexivity].
  apply find_some in Hfind. destruct Hfind as [Hin Heq].
  apply String.eqb_eq in Heq. destruct (Hnone sec Hin Heq).
Qed.

Lemma X10_balance_without_entry_witness :
  _get_security_balance held_strategy bond_CCC = 0.
Proof.
  apply (X10_balance_without_entry held_strategy bond_CCC).
  intros sec [<- | []]. discriminate.
Defined.

(** X11: an instrument whose balance is not positive never gets a
    stop-loss or take-profit SELL: the decision is that of the trend rules,
    whatever the price change and the multipliers. *)
Theorem X11_no_exit_without_holding (self : TradingStrategy)
    (messages : list message) (instrument : Instrument) (current_price : Q)
    (price_change : num) (m : gmap string (list Q)) :
  let t := ticker instrument in
  let prices := default [] (m !! t) in
  _get_security_balance self instrument <= 0 ->
  exists ema,
    calculate_ema prices (period self) = Ok ema
    /\ _get_predicate self messages instrument current_price price_change
         (TrendsDict m)
       = Ok (trend_rules self messages t current_price
               (default 0 (forecast self !! t))
               (calculate_sma prices (period self)) ema
               (calculate_rsi prices (period self))).
Proof.
  intros t prices Hbal.
  destruct (atr_or_one_total prices) as [atr Hatr].
  destruct (calculate_ema_total prices (period self)) as [ema Hema].
  destruct (_calculate_sl_tp self instrument atr) as [slm tpm] eqn:Hmult.
  exists ema. split; [exact Hema|].
  rewrite (_get_predicate_on_dict _ _ _ _ _ _ _ _ _ _ Hatr Hmult Hema).
  apply Qltb_ge in Hbal. rewrite Hbal, !andb_false_r. reflexivity.
Qed.

Lemma X11_no_exit_without_holding_witness :
  exists ema,
    let t := ticker share_AAA in
    let prices := default [] (loaded_trends rising_strategy !! t) in
    calculate_ema prices (period rising_strategy) = Ok ema
    /\ _get_predicate rising_strategy [] share_AAA 120 (Fin (-50))
         (TrendsDict (loaded_trends rising_strategy))
       = Ok (trend_rules rising_strategy [] t 120
               (default 0 (forecast rising_strategy !! t))
               (calculate_sma prices (period rising_strategy)) ema
               (calculate_rsi prices (period rising_strategy))).
Proof.
  apply (X11_no_exit_without_holding rising_strategy [] share_AAA 120
           (Fin (-50)) (loaded_trends rising_strategy)).
  discriminate.
Defined.

(** ** What a decision appends *)

Lemma trend_rules_appends (self : TradingStrategy) (messages : list message)
    (t : string) (current_price forecast_prob : Q) (sma ema rsi : option Q) :
  trend_rules self messages t current_price forecast_prob sma ema rsi = messages
  \/ exists msg,
       trend_rules self messages t current_price forecast_prob sma ema rsi
       = messages ++ [msg]
       /\ message_ticker msg = t.
Proof.
  unfold trend_rules.
  destruct sma, ema; try (left; reflexivity).
  destruct (_ && _); [right; eexists; split; reflexivity|].
  destruct (_ && _); right; eexists; split; reflexivity.
Qed.

Lemma _get_predicate_appends (self : TradingStrategy)
    (messages messages' : list message) (instrument : Instrument)
    (current_price : Q) (price_change : num) (trends : trends_t) :
  _get_predicate self messages instrument current_price price_change trends
  = Ok messages' ->
  messages' = messages
  \/ exists msg,
       messages' = messages ++ [msg]
       /\ message_ticker msg = ticker instrument.
Proof.
  intros Hres. destruct trends as [l|m]; [discriminate Hres|].
  destruct (atr_or_one_total (default [] (m !! ticker instrument)))
    as [atr Hatr].
  destruct (calculate_ema_total (default [] (m !! ticker instrument))
              (period self)) as [ema Hema].
  destruct (_calculate_sl_tp self instrument atr) as [slm tpm] eqn:Hmult.
  rewrite (_get_predicate_on_dict _ _ _ _ _ _ _ _ _ _ Hatr Hmult Hema) in Hres.
  destruct (_ && _).
  { injection Hres as <-. right. eexists. split; reflexivity. }
  destruct (_ && _).
  { injection Hres as <-. right. eexists. split; reflexivity. }
  injection Hres as <-. apply trend_rules_appends.
Qed.

(** X12: a decision that returns leaves the messages it was given in
    place and appends at most one message, which is about the ticker of the
    instrument. *)
Theorem X12_decision_appends_at_most_one (self : TradingStrategy)
    (messages messages' : list message) (instrument : Instrument)
    (current_price : Q) (price_change : num) (trends : trends_t) :
  _get_predicate self messages instrument current_price price_change trends
  = Ok messages' ->
  messages' = messages
  \/ exists msg,
       messages' = messages ++ [msg]
       /\ message_ticker msg = ticker instrument.
Proof. apply _get_predicate_appends. Qed.

Lemma X12_decision_appends_at_most_one_witness :
  [MsgHold "AAA"] = []
  \/ exists msg,
       [MsgHold "AAA"] = [] ++ [msg]
       /\ message_ticker msg = ticker share_AAA.
Proof.
  apply (X12_decision_appends_at_most_one rising_strategy [] [MsgHold "AAA"]
           share_AAA 120 (Fin 0) (_get_trends rising_strategy)).
  vm_compute. reflexivity.
Defined.

(** * Further properties of the cycle *)

(** ** The price change *)

Lemma price_change_raise_inv (prices : list Q) (current_price : Q)
    (e : exn) :
  price_change_pct current_price (average_buy_price prices current_price)
  = Raise e
  <-> prices = [] /\ current_price == 0 /\ e = ZeroDivisionError.
Proof.
  unfold average_buy_price, price_change_pct, py_div.
  destruct prices as [|p prices].
  - destruct (Qeq_bool current_price 0) eqn:E.
    + apply Qeq_bool_iff in E. split.
      * intros H. injection H as <-. auto.
      * intros (_ & _ & ->). reflexivity.
    + apply Qeq_bool_neq in E. rewrite bind_Ok. split.
      * discriminate.
      * intros (_ & H & _). contradiction.
  - split; [discriminate|]. intros (H & _). discriminate H.
Qed.

(** X13: computing the price change raises in one case only, a ticker
    without buy orders quoted at 0, and then the exception is
    [ZeroDivisionError]; with buy orders the division is on a numpy value
    and never raises. *)
Theorem X13_price_change_raises_iff (prices : list Q) (current_price : Q)
    (e : exn) :
  price_change_pct current_price (average_buy_price prices current_price)
  = Raise e
  <-> prices = [] /\ current_price == 0 /\ e = ZeroDivisionError.
Proof. apply price_change_raise_inv. Qed.

(** ** Messages follow the market snapshot *)

Lemma evaluate_ticker_appends (self : TradingStrategy) (trends : trends_t)
    (t : string) (current_price : Q) (messages messages' : list message) :
  evaluate_ticker self trends (t, current_price) messages = Ok messages' ->
  messages' = messages
  \/ exists msg, messages' = messages ++ [msg] /\ message_ticker msg = t.
Proof.
  unfold evaluate_ticker.
  destruct (find_one_instrument self t) as [instrument|] eqn:Hfind;
    [|discriminate].
  rewrite bind_Ok.
  destruct (price_change_pct _ _) as [price_change|]; [|discriminate].
  rewrite bind_Ok. intros Hres.
  apply find_some in Hfind. destruct Hfind as [_ Heq].
  apply String.eqb_eq in Heq. rewrite <- Heq.
  exact (_get_predicate_appends _ _ _ _ _ _ _ Hres).
Qed.

Lemma for_each_evaluate_sublist (self : TradingStrategy) (trends : trends_t)
    (items : Snapshot) (acc out : list message) :
  for_each (evaluate_ticker self trends) items acc = Ok out ->
  exists new,
    out = acc ++ new
    /\ sublist (map message_ticker new) (map fst items).
Proof.
  revert acc. induction items as [|[t current_price] items IH]; intros acc Hres.
  - simpl in Hres. injection Hres as <-. exists []. split.
    + symmetry. apply app_nil_r.
    + constructor.
  - cbn [for_each] in Hres.
    destruct (evaluate_ticker self trends (t, current_price) acc)
      as [acc'|] eqn:Hstep; [|discriminate Hres].
    rewrite bind_Ok in Hres.
    destruct (IH acc' Hres) as (new & -> & Hsub).
    destruct (evaluate_ticker_appends _ _ _ _ _ _ Hstep)
      as [-> | (msg & -> & Hmsg)].
    + exists new. split; [reflexivity|]. simpl. apply sublist_cons, Hsub.
    + exists (msg :: new). split; [rewrite <- app_assoc; reflexivity|].
      simpl. rewrite Hmsg. apply sublist_skip, Hsub.
Qed.

(** X14: the messages of a cycle that returns are about tickers of the
    market snapshot, at most one per entry and in the snapshot's order. *)
Theorem X14_messages_follow_market (self : TradingStrategy)
    (messages : list message) :
  make_predicate self = Ok messages ->
  sublist (map message_ticker messages) (map fst (market_data self))
  /\ (length messages <= length (market_data self))%nat.
Proof.
  intros Hres. unfold make_predicate in Hres.
  destruct (for_each_evaluate_sublist _ _ _ _ _ Hres) as (new & -> & Hsub).
  simpl. split; [exact Hsub|].
  apply sublist_length in Hsub. rewrite !length_map in Hsub. exact Hsub.
Qed.

Lemma X14_messages_follow_market_witness :
  sublist (map message_ticker [MsgHold "AAA"])
    (map fst (market_data rising_strategy))
  /\ (length [MsgHold "AAA"] <= length (market_data rising_strategy))%nat.
Proof.
  apply (X14_messages_follow_market rising_strategy [MsgHold "AAA"]).
  vm_compute. reflexivity.
Defined.

(** ** Why a cycle fails *)

Lemma for_each_raise_inv {I A : Type} (body : I -> A -> result A)
    (items : list I) (acc : A) (e : exn) :
  for_each body items acc = Raise e ->
  exists item acc', In item items /\ body item acc' = Raise e.
Proof.
  revert acc. induction items as [|i items IH]; intros acc Hres;
    [discriminate|].
  cbn [for_each] in Hres. destruct (body i acc) as [acc'|e'] eqn:Hstep.
  - rewrite bind_Ok in Hres.
    destruct (IH acc' Hres) as (item & acc'' & Hin & Hraise).
    exists item, acc''. split; [right; exact Hin | exact Hraise].
  - injection Hres as <-. exists i, acc. split; [left; reflexivity | exact Hstep].
Qed.

Lemma _get_trends_list (self : TradingStrategy) (l : list string) :
  _get_trends self = TrendsList l -> market_data_coll (db self) = [].
Proof.
  unfold _get_trends.
  destruct (history_records self) eqn:Hrec; [|discriminate].
  intros _. apply history_records_nil, Hrec.
Qed.

Lemma make_predicate_raise_causes (self : TradingStrategy) (e : exn) :
  make_predicate self = Raise e ->
  (e = TypeError
   /\ exists t current_price,
        In (t, current_price) (market_data self)
        /\ find_one_instrument self t = None)
  \/ (e = ZeroDivisionError
      /\ exists t current_price instrument,
           In (t, current_price) (market_data self)
           /\ find_one_instrument self t = Some instrument
           /\ find_buy_orders self (uid instrument) = []
           /\ current_price == 0)
  \/ (e = AttributeError /\ market_data_coll (db self) = []).
Proof.
  intros Hres. unfold make_predicate in Hres.
  apply for_each_raise_inv in Hres.
  destruct Hres as ([t current_price] & acc & Hin & Hraise).
  unfold evaluate_ticker in Hraise.
  destruct (find_one_instrument self t) as [instrument|] eqn:Hfind.
  2:{ injection Hraise as <-. left. split; [reflexivity|]. eauto. }
  rewrite bind_Ok in Hraise.
  destruct (price_change_pct _ _) as [price_change|e'] eqn:Hpc.
  - rewrite bind_Ok in Hraise. right. right.
    destruct (_get_trends self) as [l|m] eqn:Htrends.
    + injection Hraise as <-. split; [reflexivity|].
      apply (_get_trends_list self l), Htrends.
    + destruct (_get_predicate_total self acc instrument current_price
                  price_change m) as [out Hout].
      congruence.
  - injection Hraise as <-.
    apply price_change_raise_inv in Hpc.
    destruct Hpc as (Hflat & Hzero & ->).
    right. left. split; [reflexivity|].
    exists t, current_price, instrument.
    apply map_eq_nil in Hflat. auto.
Qed.

(** X15: a cycle can fail in three ways only.  [TypeError]: a ticker of the
    market snapshot has no instrument.  [ZeroDivisionError]: a ticker
    without buy orders is quoted at 0.  [AttributeError]: no snapshot is
    stored.  In particular the [IndexError] of ATR on a short series never
    leaves the cycle. *)
Theorem X15_cycle_failure_causes (self : TradingStrategy) (e : exn) :
  make_predicate self = Raise e ->
  (e = TypeError
   /\ exists t current_price,
        In (t, current_price) (market_data self)
        /\ find_one_instrument self t = None)
  \/ (e = ZeroDivisionError
      /\ exists t current_price instrument,
           In (t, current_price) (market_data self)
           /\ find_one_instrument self t = Some instrument
           /\ find_buy_orders self (uid instrument) = []
           /\ current_price == 0)
  \/ (e = AttributeError /\ market_data_coll (db self) = []).
Proof. apply make_predicate_raise_causes. Qed.

Lemma X15_cycle_failure_causes_witness :
  (ZeroDivisionError = TypeError
   /\ exists t current_price,
        In (t, current_price) (market_data zero_price_strategy)
        /\ find_one_instrument zero_price_strategy t = None)
  \/ (ZeroDivisionError = ZeroDivisionError
      /\ exists t current_price instrument,
           In (t, current_price) (market_data zero_price_strategy)
           /\ find_one_instrument zero_price_strategy t = Some instrument
           /\ find_buy_orders zero_price_strategy (uid instrument) = []
           /\ current_price == 0)
  \/ (ZeroDivisionError = AttributeError
      /\ market_data_coll (db zero_price_strategy) = []).
Proof.
  apply (X15_cycle_failure_causes zero_price_strategy ZeroDivisionError).
  reflexivity.
Defined.

(** X16: a cycle returns a message list whenever at least one snapshot is
    stored, every ticker of the market snapshot has an instrument, and no
    ticker without buy orders is quoted at 0. *)
Theorem X16_cycle_returns (self : TradingStrategy) :
  market_data_coll (db self) <> [] ->
  (forall t current_price,
     In (t, current_price) (market_data self) ->
     exists instrument,
       find_one_instrument self t = Some instrument
       /\ (find_buy_orders self (uid instrument) = [] -> ~ current_price == 0)) ->
  exists messages, make_predicate self = Ok messages.
Proof.
  intros Hstored Hmarket.
  destruct (make_predicate self) as [messages|e] eqn:Hres; [eauto|].
  exfalso.
  destruct (make_predicate_raise_causes self e Hres)
    as [(_ & t & cp & Hin & Hnone)
       | [(_ & t & cp & instrument & Hin & Hsome & Hflat & Hzero)
         | (_ & Hcoll)]].
  - destruct (Hmarket t cp Hin) as (i & Hi & _). congruence.
  - destruct (Hmarket t cp Hin) as (i & Hi & Hprice).
    assert (i = instrument) by congruence. subst i.
    exact (Hprice Hflat Hzero).
  - contradiction.
Qed.

Lemma X16_cycle_returns_witness :
  exists messages, make_predicate held_strategy = Ok messages.
Proof.
  apply (X16_cycle_returns held_strategy).
  - vm_compute. discriminate.
  - intros t current_price [Heq | []]. injection Heq as <- <-.
    exists share_AAA. split; [reflexivity|]. intros _. discriminate.
Defined.

(** X17: without any stored snapshot a cycle over a non-empty market
    snapshot never returns a message list. *)
Theorem X17_cycle_without_history_raises (self : TradingStrategy) :
  market_data_coll (db self) = [] ->
  market_data self <> [] ->
  exists e, make_predicate self = Raise e.
Proof. apply empty_history_cycle_raises. Qed.

Lemma X17_cycle_without_history_raises_witness :
  exists e, make_predicate empty_history_strategy = Raise e.
Proof.
  apply (X17_cycle_without_history_raises empty_history_strategy).
  - reflexivity.
  - discriminate.
Defined.

(** ** The length of a loaded series *)

Lemma filter_absent_key (t : string) (record : Snapshot) :
  ~ In t (map fst record) ->
  List.filter (fun item => String.eqb (fst item) t) record = [].
Proof.
  induction record as [|[t' p] record IH]; intros Habsent; [reflexivity|].
  simpl in *. destruct (String.eqb_spec t' t) as [->|Hne].
  - exfalso. apply Habsent. left. reflexivity.
  - apply IH. intros Hin. apply Habsent. right. exact Hin.
Qed.

Lemma filter_unique_key (t : string) (record : Snapshot) :
  NoDup (map fst record) ->
  (length (List.filter (fun item => String.eqb (fst item) t) record) <= 1)%nat.
Proof.
  induction record as [|[t' p] record IH]; intros Hnodup; [simpl; lia|].
  change (map fst ((t', p) :: record)) with (t' :: map fst record) in Hnodup.
  apply NoDup_cons in Hnodup. destruct Hnodup as [Hfresh Hnodup].
  simpl. destruct (String.eqb_spec t' t) as [->|Hne]; [|apply IH, Hnodup].
  rewrite filter_absent_key; [simpl; lia|].
  intros Hin. apply Hfresh, list_elem_of_In, Hin.
Qed.

Lemma length_series_of (t : string) (records : list Snapshot) :
  Forall (fun record => NoDup (map fst record)) records ->
  (length (series_of t records) <= length records)%nat.
Proof.
  induction 1 as [|record records Hrecord _ IH]; [simpl; lia|].
  unfold series_of in *. simpl. rewrite length_app, length_map.
  pose proof (filter_unique_key t record Hrecord). lia.
Qed.

Lemma default_entry_of (series : list Q) : default [] (entry_of series) = series.
Proof. destruct series; reflexivity. Qed.

(** X18: with a positive frame, and snapshots that quote a ticker at most
    once, no loaded price series is longer than the frame. *)
Theorem X18_series_within_frame (self : TradingStrategy) (t : string)
    (prices : list Q) :
  (0 < frame self)%nat ->
  Forall (fun record => NoDup (map fst record)) (market_data_coll (db self)) ->
  trends_get (_get_trends self) t = Ok prices ->
  (length prices <= frame self)%nat.
Proof.
  intros Hframe Hunique Hget. unfold _get_trends in Hget.
  assert (Hlen : (length (history_records self) <= frame self)%nat).
  { unfold history_records, mongo_limit.
    destruct (frame self); [lia|]. rewrite length_take. lia. }
  assert (Hrecords :
    Forall (fun record => NoDup (map fst record)) (history_records self)).
  { unfold history_records, mongo_limit.
    destruct (frame self); [lia|]. apply Forall_take, Forall_rev, Hunique. }
  destruct (history_records self) as [|record records] eqn:Hrec;
    [discriminate|].
  unfold trends_get in Hget. injection Hget as <-.
  change (fold_left add_record records (add_record ∅ record))
    with (fold_left add_record (record :: records) ∅).
  rewrite (add_records_lookup (record :: records) ∅ t [] (lookup_empty t)).
  rewrite app_nil_l, default_entry_of.
  pose proof (length_series_of t (record :: records) Hrecords) as Hs. lia.
Qed.

Lemma X18_series_within_frame_witness :
  (length (map (fun i => inject_Z (Z.of_nat i)) (seq 100 21))
   <= frame rising_strategy)%nat.
Proof.
  apply (X18_series_within_frame rising_strategy "AAA").
  - vm_compute. lia.
  - vm_compute. repeat constructor; intros H; inversion H.
  - vm_compute. reflexivity.
Defined.

(** ** Short series *)

(** X19: a ticker whose loaded series is shorter than the period (in
    particular a ticker without any stored price) and whose balance is not
    positive is skipped: the decision returns the messages unchanged. *)
Theorem X19_short_series_not_held_is_skipped (self : TradingStrategy)
    (messages : list message) (instrument : Instrument) (current_price : Q)
    (price_change : num) (m : gmap string (list Q)) :
  (length (default [] (m !! ticker instrument)) < pnat (period self))%nat ->
  _get_security_balance self instrument <= 0 ->
  _get_predicate self messages instrument current_price price_change
    (TrendsDict m) = Ok messages.
Proof.
  intros Hshort Hbal.
  destruct (atr_or_one_total (default [] (m !! ticker instrument)))
    as [atr Hatr].
  destruct (_calculate_sl_tp self instrument atr) as [slm tpm] eqn:Hmult.
  rewrite (_get_predicate_on_dict _ _ _ _ _ _ _ _ _ _ Hatr Hmult
             (calculate_ema_short _ _ Hshort)).
  apply Qltb_ge in Hbal. rewrite Hbal, !andb_false_r.
  rewrite (calculate_sma_short _ _ Hshort). reflexivity.
Qed.

Lemma X19_short_series_not_held_is_skipped_witness :
  _get_predicate quiet_strategy [] share_AAA 120 (Fin 0)
    (TrendsDict (loaded_trends quiet_strategy)) = Ok [].
Proof.
  apply (X19_short_series_not_held_is_skipped quiet_strategy [] share_AAA
           120 (Fin 0) (loaded_trends quiet_strategy)).
  - vm_compute. lia.
  - discriminate.
Defined.

(** X20: for a series shorter than 14 prices the ATR in use is the
    fall-back 1, so the two multipliers are the stop-loss and take-profit
    settings of the instrument themselves. *)
Theorem X20_multipliers_on_short_series (self : TradingStrategy)
    (instrument : Instrument) (prices : list Q) :
  (length prices < 14)%nat ->
  exists sl_multiplier tp_multiplier,
    atr_or_one prices = Ok 1
    /\ _calculate_sl_tp self instrument 1
       = (Fin sl_multiplier, Fin tp_multiplier)
    /\ sl_multiplier == sl_for self instrument
    /\ tp_multiplier == tp_for self instrument.
Proof.
  intros Hshort. eexists _, _.
  split; [apply atr_or_one_short, Hshort|].
  split; [reflexivity|].
  unfold sl_for, tp_for. split; field.
Qed.

Lemma X20_multipliers_on_short_series_witness :
  exists sl_multiplier tp_multiplier,
    atr_or_one [100; 101; 102] = Ok 1
    /\ _calculate_sl_tp held_strategy bond_CCC 1
       = (Fin sl_multiplier, Fin tp_multiplier)
    /\ sl_multiplier == sl_for held_strategy bond_CCC
    /\ tp_multiplier == tp_for held_strategy bond_CCC.
Proof.
  apply (X20_multipliers_on_short_series held_strategy bond_CCC
           [100; 101; 102]).
  simpl. lia.
Defined.
